(** * Financial Data Source Service: the cache engine of [src/main.py]

    A shallow embedding of the request handler [get_data], of the two
    upstream adapters and of the backup task, followed by the properties
    of the cache that the specification states about them.

    Conventions of the embedding:
    - a [datetime.date] is an integer coded [yyyymmdd]; this code orders
      dates exactly as Python compares them (year, then month, then day);
    - an index entry of a DataFrame is a [Timestamp]: wall-clock date,
      time of day and tzinfo, as the fields of a Python datetime;
    - a DataFrame is the list of its rows in storage order; a row is its
      index entry and the tuple of its column cells; a cell is the number
      it holds, as an integer in the unit of its column (cents, shares,
      basis points): the code only tests cells for equality;
    - the external libraries (datetime, yfinance, pandas_datareader, the
      CSV writer, gzip, the blob client) are parameters of the functions
      that call them;
    - module level state ([cache], [asset_locks], the event loop's tasks,
      standard output, the blob container) is one record, [World], that
      the code threads through a state and exception monad. *)

From Stdlib Require Import ZArith Ascii String.
From stdpp Require Import gmap strings list fin_maps sorting pretty.

Local Open Scope Z_scope.

(** * Part I: the embedding *)

(** ** Data model *)

(** [datetime.date], coded yyyymmdd. *)
Abbreviation date := Z.

(** An entry of a [DatetimeIndex]: the fields of the datetime it denotes. *)
Record Timestamp := mkTimestamp {
  ts_date : date;           (* year, month, day *)
  ts_time : Z;              (* time of day, in nanoseconds *)
  ts_tz : option string     (* tzinfo: None for a naive timestamp *)
}.

(** One row of a DataFrame: its index entry and its column cells. *)
Record Row := mkRow {
  index : Timestamp;
  cells : list Z
}.

Abbreviation DataFrame := (list Row).

#[global] Instance Timestamp_eq_dec : EqDecision Timestamp.
Proof. solve_decision. Defined.

#[global] Instance Row_eq_dec : EqDecision Row.
Proof. solve_decision. Defined.

(** [Timestamp.date()]: the date with the same year, month and day. *)
Definition to_date (t : Timestamp) : date := ts_date t.

(** [cached_df.index.date]: the date of a row. *)
Definition row_date (r : Row) : date := to_date (index r).

(** Order of the entries of one index. An index carries a single tz, so
    instants are ordered as their wall-clock fields are: the order looks at
    the date and the time and not at [ts_tz]. It is the order of pandas for
    the frames of a key whose provider answers in one time zone. *)
Definition ts_leb (a b : Timestamp) : bool :=
  (ts_date a <? ts_date b) || ((ts_date a =? ts_date b) && (ts_time a <=? ts_time b)).

Definition ts_le (a b : Timestamp) : Prop := ts_leb a b = true.

(** Orders on rows: by index entry, by date with ties, by date without. *)
Definition row_le (a b : Row) : Prop := ts_le (index a) (index b).

(** Ascending by date, ties allowed. *)
Definition date_le (a b : Row) : Prop := row_date a <= row_date b.

(** Ascending by date, no two rows on the same date. *)
Definition date_lt (a b : Row) : Prop := row_date a < row_date b.

(** ** The pandas operations of the merge *)

(** [pd.concat([a, b])]: the rows of [a] followed by those of [b]. The two
    frames are those of one key, whose index entries carry one tzinfo; the
    concat of differently zoned frames, which pandas indexes by a plain
    object Index, is outside of this embedding. *)
Definition concat (a b : DataFrame) : DataFrame := a ++ b.

(** [DataFrame.drop_duplicates()], with its defaults [subset=None] and
    [keep='first']: a row is dropped when an earlier row has the same
    cells in every column. The index takes no part in the comparison. *)
Fixpoint drop_duplicates_from (seen : list (list Z)) (df : DataFrame) : DataFrame :=
  match df with
  | [] => []
  | r :: rest =>
      if bool_decide (cells r ∈ seen)
      then drop_duplicates_from seen rest
      else r :: drop_duplicates_from (cells r :: seen) rest
  end.

Definition drop_duplicates (df : DataFrame) : DataFrame :=
  drop_duplicates_from [] df.

(** [DataFrame.sort_index()]: the rows in ascending order of their index
    entries. Rows with equal entries keep their relative order, as they do
    in pandas when the index is already monotonic. *)
Fixpoint insert_row (r : Row) (df : DataFrame) : DataFrame :=
  match df with
  | [] => [r]
  | x :: rest =>
      if ts_leb (index r) (index x) then r :: df else x :: insert_row r rest
  end.

Fixpoint sort_index (df : DataFrame) : DataFrame :=
  match df with
  | [] => []
  | r :: rest => insert_row r (sort_index rest)
  end.

(** Line 154: [pd.concat([cache[asset_id], fetched_df]).drop_duplicates().sort_index()]. *)
Definition merge_frames (cached fetched : DataFrame) : DataFrame :=
  sort_index (drop_duplicates (concat cached fetched)).

(** [index.min()] and [index.max()]; [None] stands for [NaT], the value
    pandas returns on an empty index. *)
Fixpoint index_min (df : DataFrame) : option Timestamp :=
  match df with
  | [] => None
  | r :: rest =>
      match index_min rest with
      | None => Some (index r)
      | Some m => Some (if ts_leb (index r) m then index r else m)
      end
  end.

Fixpoint index_max (df : DataFrame) : option Timestamp :=
  match df with
  | [] => None
  | r :: rest =>
      match index_max rest with
      | None => Some (index r)
      | Some m => Some (if ts_leb (index r) m then m else index r)
      end
  end.

(** [df.empty]. *)
Definition empty_frame (df : DataFrame) : bool :=
  match df with [] => true | _ => false end.

(** ** Exceptions, external results and the state of the process *)

(** The exceptions the handler and its helpers raise or let through. *)
Inductive PyExc :=
  | HTTPException (status_code : Z) (detail : string)
  | ValueError (msg : string)
  | OtherException (str_e : string).  (* any other class below Exception *)

Inductive Outcome (A : Type) :=
  | Return (a : A)
  | Raise (e : PyExc).
Arguments Return {A} a.
Arguments Raise {A} e.

(** The result of a call into an external library: a value, or an
    exception of class [Exception] of which the code reads [str(e)]. *)
Inductive Ext (A : Type) :=
  | Gives (a : A)
  | Fails (str_e : string).
Arguments Gives {A} a.
Arguments Fails {A} str_e.

(** The two providers, as they answer during one request. *)
Record Upstream := mkUpstream {
  (* yfin.Ticker(asset_id).history(start=, end=, auto_adjust=False) *)
  yf_history : string -> string -> string -> Ext DataFrame;
  (* pdr.get_data_fred(asset_id, start=, end=) *)
  get_data_fred : string -> string -> string -> Ext DataFrame
}.

(** The libraries of the backup, as they behave during one backup task. *)
Record Storage := mkStorage {
  to_csv : DataFrame -> Ext string;           (* data.to_csv + encode *)
  gzip_write : string -> Ext string;          (* gzip.GzipFile(...).write *)
  get_blob_client : string -> Ext unit;       (* container.get_blob_client *)
  upload_blob : string -> string -> Ext unit  (* blob_client.upload_blob *)
}.

Inductive Source := Yahoo | Fred.

(** A call made to a provider: which one, and the three arguments. *)
Record Call := mkCall {
  call_source : Source;
  call_asset : string;
  call_start : string;
  call_end : string
}.

(** What [print] wrote. *)
Inductive Line :=
  | PrintHead (rows : DataFrame)       (* print(result_df.head()) *)
  | PrintText (s : string).

Record World := mkWorld {
  cache : gmap string DataFrame;         (* asset_id -> DataFrame *)
  asset_locks : gset string;             (* asset_id -> asyncio.Lock *)
  tasks : list (string * DataFrame);     (* created, not yet run *)
  calls : list Call;                     (* provider calls, in order *)
  stdout : list Line;
  blobs : gmap string string             (* the container: name -> body *)
}.

Definition init : World :=
  {| cache := ∅; asset_locks := ∅; tasks := []; calls := []; stdout := []; blobs := ∅ |}.

Definition set_cache (f : gmap string DataFrame -> gmap string DataFrame) (w : World) : World :=
  {| cache := f (cache w); asset_locks := asset_locks w; tasks := tasks w;
     calls := calls w; stdout := stdout w; blobs := blobs w |}.

Definition set_asset_locks (f : gset string -> gset string) (w : World) : World :=
  {| cache := cache w; asset_locks := f (asset_locks w); tasks := tasks w;
     calls := calls w; stdout := stdout w; blobs := blobs w |}.

Definition set_tasks (f : list (string * DataFrame) -> list (string * DataFrame)) (w : World) : World :=
  {| cache := cache w; asset_locks := asset_locks w; tasks := f (tasks w);
     calls := calls w; stdout := stdout w; blobs := blobs w |}.

Definition set_calls (f : list Call -> list Call) (w : World) : World :=
  {| cache := cache w; asset_locks := asset_locks w; tasks := tasks w;
     calls := f (calls w); stdout := stdout w; blobs := blobs w |}.

Definition set_stdout (f : list Line -> list Line) (w : World) : World :=
  {| cache := cache w; asset_locks := asset_locks w; tasks := tasks w;
     calls := calls w; stdout := f (stdout w); blobs := blobs w |}.

Definition set_blobs (f : gmap string string -> gmap string string) (w : World) : World :=
  {| cache := cache w; asset_locks := asset_locks w; tasks := tasks w;
     calls := calls w; stdout := stdout w; blobs := f (blobs w) |}.

(** ** The monad of the code: state passing with exceptions *)

Definition M (A : Type) : Type := World -> World * Outcome A.

Definition ret {A} (a : A) : M A := fun w => (w, Return a).

Definition raise {A} (e : PyExc) : M A := fun w => (w, Raise e).

Definition bind {A B} (m : M A) (k : A -> M B) : M B :=
  fun w =>
    match m w with
    | (w', Return a) => k a w'
    | (w', Raise e) => (w', Raise e)
    end.

Notation "x <- m ;; k" := (bind m (fun x => k))
  (at level 100, m at next level, right associativity).
Notation "m ;;; k" := (bind m (fun _ => k))
  (at level 100, right associativity).

(** [try: m except C: h], where [catches e] tells whether [e] is of class C. *)
Definition try_except {A} (m : M A) (catches : PyExc -> bool) (h : PyExc -> M A) : M A :=
  fun w =>
    match m w with
    | (w', Return a) => (w', Return a)
    | (w', Raise e) => if catches e then h e w' else (w', Raise e)
    end.

Definition modify (f : World -> World) : M unit := fun w => (f w, Return tt).

Definition gets {A} (f : World -> A) : M A := fun w => (w, Return (f w)).

Definition print (l : Line) : M unit := modify (set_stdout (fun out => out ++ [l])).

(** Classes of the [except] clauses. Every [PyExc] is an [Exception]. *)
Definition is_ValueError (e : PyExc) : bool :=
  match e with ValueError _ => true | _ => false end.

Definition is_Exception (e : PyExc) : bool := true.

(** [str(e)]. *)
Definition str_exc (e : PyExc) : string :=
  match e with
  | HTTPException status_code detail => pretty status_code +:+ ": " +:+ detail
  | ValueError msg => msg
  | OtherException s => s
  end.

(** A call into an external library inside the monad: its exception is
    raised with the text [str(e)]. *)
Definition call_ext {A} (r : Ext A) : M A :=
  match r with
  | Gives a => ret a
  | Fails s => raise (OtherException s)
  end.

(** ** The code of [src/main.py] *)

(** [is_macro_metric]: [asset_id.startswith("M_")]. *)
Definition is_macro_metric (asset_id : string) : bool :=
  String.prefix "M_" asset_id.

(** [fetch_yahoo_finance] (lines 46-57). The call is recorded in [calls]. *)
Definition fetch_yahoo_finance (up : Upstream) (asset_id start_date end_date : string)
  : M DataFrame :=
  try_except
    (modify (set_calls (fun cs => cs ++ [mkCall Yahoo asset_id start_date end_date])) ;;;
     hist <- call_ext (yf_history up asset_id start_date end_date) ;;
     if empty_frame hist
     then raise (ValueError ("No data found for ticker " +:+ asset_id))
     else ret hist)
    is_Exception
    (fun e => raise (ValueError
       ("Error fetching data from Yahoo Finance for " +:+ asset_id +:+ ": " +:+ str_exc e))).

(** [fetch_fred] (lines 60-70). *)
Definition fetch_fred (up : Upstream) (asset_id start_date end_date : string)
  : M DataFrame :=
  try_except
    (modify (set_calls (fun cs => cs ++ [mkCall Fred asset_id start_date end_date])) ;;;
     df <- call_ext (get_data_fred up asset_id start_date end_date) ;;
     if empty_frame df
     then raise (ValueError ("No data found for FRED series " +:+ asset_id))
     else ret df)
    is_Exception
    (fun e => raise (ValueError
       ("Error fetching data from FRED for " +:+ asset_id +:+ ": " +:+ str_exc e))).

(** [backup_to_azure] (lines 73-99): the whole body is inside
    [try: ... except Exception as e: print(...)]. *)
Definition backup_to_azure (st : Storage) (asset_id : string) (data : DataFrame)
  : M unit :=
  try_except
    (csv_bytes <- call_ext (to_csv st data) ;;
     compressed_data <- call_ext (gzip_write st csv_bytes) ;;
     let blob_name := asset_id +:+ ".csv.gz" in
     call_ext (get_blob_client st blob_name) ;;;
     call_ext (upload_blob st blob_name compressed_data) ;;;
     modify (set_blobs (fun b => <[blob_name := compressed_data]> b)) ;;;
     print (PrintText ("Backup successful for " +:+ asset_id)))
    is_Exception
    (fun e => print (PrintText
       ("Error backing up data for " +:+ asset_id +:+ ": " +:+ str_exc e))).

(** [get_or_create_lock] (lines 102-109). *)
Definition get_or_create_lock (asset_id : string) : M unit :=
  modify (set_asset_locks (fun locks =>
    if bool_decide (asset_id ∈ locks) then locks else {[asset_id]} ∪ locks)).

(** [cache[asset_id]]: a [KeyError] when the key is absent. *)
Definition cache_get (asset_id : string) : M DataFrame :=
  fun w =>
    match cache w !! asset_id with
    | Some df => (w, Return df)
    | None => (w, Raise (OtherException ("'" +:+ asset_id +:+ "'")))
    end.

(** [asyncio.create_task(backup_to_azure(asset_id, data))]: the task is
    created and runs later, outside of the request. *)
Definition create_task (asset_id : string) (data : DataFrame) : M unit :=
  modify (set_tasks (fun ts => ts ++ [(asset_id, data)])).

(** The response: [result_df.to_dict(orient="split")] under [data]. *)
Record SplitDict := mkSplitDict {
  split_index : list Timestamp;
  split_data : list (list Z)
}.

Record DataResponse := mkDataResponse {
  resp_asset_id : string;
  resp_data : SplitDict
}.

Definition to_dict_split (df : DataFrame) : SplitDict :=
  {| split_index := map index df; split_data := map cells df |}.

(** The mask of line 163, on one row. *)
Definition in_range (start_dt end_dt : date) (r : Row) : Prop :=
  start_dt <= row_date r /\ row_date r <= end_dt.

#[global] Instance in_range_dec start_dt end_dt r : Decision (in_range start_dt end_dt r).
Proof. unfold in_range. apply _. Defined.

(** Lines 134-143: is the request outside of what the cache holds?
    Comparing a date with [NaT], the minimum of an empty index, raises a
    [TypeError] (pandas 2); no entry of the cache is ever empty, see
    [reachable_nonempty]. *)
Definition check_cache (asset_id : string) (start_dt end_dt : date) : M bool :=
  c <- gets cache ;;
  match c !! asset_id with
  | Some cached_df =>
      match index_min cached_df, index_max cached_df with
      | Some lo, Some hi =>
          let available_start := to_date lo in
          let available_end := to_date hi in
          ret ((start_dt <? available_start) || (available_end <? end_dt))
      | _, _ => raise (OtherException "Cannot compare NaT with datetime.date object")
      end
  | None => ret true
  end.

(** Lines 152-156. *)
Definition update_cache (asset_id : string) (fetched_df : DataFrame) : M unit :=
  modify (set_cache (fun c =>
    match c !! asset_id with
    | Some cached_df => <[asset_id := merge_frames cached_df fetched_df]> c
    | None => <[asset_id := fetched_df]> c
    end)).

(** Lines 161-171. *)
Definition retrieve (asset_id : string) (start_dt end_dt : date) : M DataResponse :=
  cached_df <- cache_get asset_id ;;
  let result_df := filter (in_range start_dt end_dt) cached_df in
  print (PrintHead (take 5 result_df)) ;;;
  if empty_frame result_df
  then raise (HTTPException 404 "No data found for the specified range.")
  else ret {| resp_asset_id := asset_id; resp_data := to_dict_split result_df |}.

(** Lines 146-150: the adapter of the key, chosen by [is_macro_metric]. *)
Definition fetch (up : Upstream) (asset_id start_date end_date : string) : M DataFrame :=
  if is_macro_metric asset_id
  then fetch_fred up asset_id start_date end_date
  else fetch_yahoo_finance up asset_id start_date end_date.

Section Handler.

(** [datetime.strptime(s, "%Y-%m-%d").date()]; [None] is its [ValueError]. *)
Variable strptime : string -> option date.

Definition parse_date (s : string) : M date :=
  match strptime s with
  | Some d => ret d
  | None => raise (ValueError "time data does not match format")
  end.

(** Lines 121-128. *)
Definition validate (start_date end_date : string) : M (date * date) :=
  try_except
    (start_dt <- parse_date start_date ;;
     end_dt <- parse_date end_date ;;
     if end_dt <? start_dt
     then raise (HTTPException 400 "start_date must be before end_date")
     else ret (start_dt, end_dt))
    is_ValueError
    (fun _ => raise (HTTPException 400 "Invalid date format. Use YYYY-MM-DD.")).

(** Lines 145-159, the branch taken when [needs_fetch] is true. *)
Definition fetch_and_store (up : Upstream) (asset_id start_date end_date : string)
  : M unit :=
  fetched_df <- fetch up asset_id start_date end_date ;;
  update_cache asset_id fetched_df ;;;
  data <- cache_get asset_id ;;
  create_task asset_id data.

(** [get_data] (lines 113-171). *)
Definition get_data (up : Upstream) (asset_id start_date end_date : string)
  : M DataResponse :=
  dts <- validate start_date end_date ;;
  let start_dt := dts.1 in
  let end_dt := dts.2 in
  get_or_create_lock asset_id ;;;
  needs_fetch <- check_cache asset_id start_dt end_dt ;;
  (if needs_fetch : bool
   then fetch_and_store up asset_id start_date end_date
   else ret tt) ;;;
  retrieve asset_id start_dt end_dt.

(** ** The process: requests and backup tasks, one at a time

    Nothing in [get_data] suspends between taking the lock of the key and
    returning, so a request is one step. A created backup task runs as a
    later step of its own. [good] is what is assumed of the providers. *)
Inductive step (good : Upstream -> Prop) : World -> World -> Prop :=
  | step_request up asset_id start_date end_date w :
      good up ->
      step good w (get_data up asset_id start_date end_date w).1
  | step_backup st asset_id data pre post w :
      tasks w = pre ++ (asset_id, data) :: post ->
      step good w (backup_to_azure st asset_id data (set_tasks (fun _ => pre ++ post) w)).1.

(** The worlds the process can be in, whatever the providers answer. *)
Definition reachable (w : World) : Prop := rtc (step (fun _ => True)) init w.

End Handler.

(** * Part II: notions used to state the properties *)

(** ** The coverage of a frame *)

(** The least and the greatest of a list of dates. *)
Fixpoint min_date (ds : list date) : option date :=
  match ds with
  | [] => None
  | d :: rest =>
      match min_date rest with
      | None => Some d
      | Some m => Some (Z.min d m)
      end
  end.

Fixpoint max_date (ds : list date) : option date :=
  match ds with
  | [] => None
  | d :: rest =>
      match max_date rest with
      | None => Some d
      | Some m => Some (Z.max d m)
      end
  end.

(** [available_start] and [available_end] of lines 136-137. *)
Definition available_start (df : DataFrame) : option date := to_date <$> index_min df.
Definition available_end (df : DataFrame) : option date := to_date <$> index_max df.

(** ** The steps of the handler *)

(** The provider the key is routed to, and its answer to the request. *)
Definition source_of (asset_id : string) : Source :=
  if is_macro_metric asset_id then Fred else Yahoo.

Definition provider (up : Upstream) (asset_id start_date end_date : string) : Ext DataFrame :=
  if is_macro_metric asset_id
  then get_data_fred up asset_id start_date end_date
  else yf_history up asset_id start_date end_date.

(** The adapter fails: the provider raised, or returned no rows. *)
Definition adapter_fails (r : Ext DataFrame) : Prop :=
  match r with
  | Fails _ => True
  | Gives df => df = []
  end.

(** The text of the [ValueError] an adapter raises when it fails. *)
Definition adapter_error (asset_id : string) (r : Ext DataFrame) : string :=
  if is_macro_metric asset_id
  then "Error fetching data from FRED for " +:+ asset_id +:+ ": " +:+
       match r with
       | Fails m => m
       | Gives _ => "No data found for FRED series " +:+ asset_id
       end
  else "Error fetching data from Yahoo Finance for " +:+ asset_id +:+ ": " +:+
       match r with
       | Fails m => m
       | Gives _ => "No data found for ticker " +:+ asset_id
       end.

(** What [update_cache] stores under the key. *)
Definition stored_entry (c : gmap string DataFrame) (asset_id : string) (fetched_df : DataFrame)
  : DataFrame :=
  match c !! asset_id with
  | Some cached_df => merge_frames cached_df fetched_df
  | None => fetched_df
  end.

Definition log_call (asset_id start_date end_date : string) (w : World) : World :=
  set_calls (fun cs => cs ++ [mkCall (source_of asset_id) asset_id start_date end_date]) w.

(** The outcome of [retrieve] is read off the cached frame alone. *)
Definition slice (start_dt end_dt : date) (cached_df : DataFrame) : DataFrame :=
  filter (in_range start_dt end_dt) cached_df.

Definition retrieved (asset_id : string) (start_dt end_dt : date) (cached_df : DataFrame)
  : Outcome DataResponse :=
  match slice start_dt end_dt cached_df with
  | [] => Raise (HTTPException 404 "No data found for the specified range.")
  | result_df =>
      Return {| resp_asset_id := asset_id; resp_data := to_dict_split result_df |}
  end.

(** The value of the local variable [needs_fetch] (lines 134-143);
    [None] when the comparison with [NaT] raises. *)
Definition needs_fetch (c : gmap string DataFrame) (asset_id : string)
    (start_dt end_dt : date) : option bool :=
  match c !! asset_id with
  | Some cached_df =>
      match index_min cached_df, index_max cached_df with
      | Some lo, Some hi => Some ((start_dt <? to_date lo) || (to_date hi <? end_dt))
      | _, _ => None
      end
  | None => Some true
  end.

Definition locked (asset_id : string) (w : World) : World :=
  set_asset_locks (fun locks =>
    if bool_decide (asset_id ∈ locks) then locks else {[asset_id]} ∪ locks) w.

(** The request is outside of what the cache holds for the key: the key is
    absent, or the request starts before the covered range or ends after it. *)
Definition outside_coverage (c : gmap string DataFrame) (asset_id : string)
    (start_dt end_dt : date) : Prop :=
  c !! asset_id = None \/
  exists df lo hi,
    c !! asset_id = Some df /\
    available_start df = Some lo /\ available_end df = Some hi /\
    (start_dt < lo \/ hi < end_dt).

(** ** Invariants of the cache and contracts of the providers *)

(** Every entry of the cache holds at least one row. *)
Definition cache_nonempty (w : World) : Prop :=
  forall asset_id df, cache w !! asset_id = Some df -> df <> [].

(** A provider honours the contract of the adapters when every frame it
    gives is in ascending order of its index. *)
Definition ascending_answers (up : Upstream) : Prop :=
  forall asset_id start_date end_date df,
    provider up asset_id start_date end_date = Gives df -> StronglySorted row_le df.

Definition cache_sorted (w : World) : Prop :=
  forall asset_id df, cache w !! asset_id = Some df -> StronglySorted row_le df.

(** The providers honour the contract of the adapters in the strict sense:
    every frame they give is strictly ascending by date. *)
Definition strict_answers (up : Upstream) : Prop :=
  forall asset_id start_date end_date df,
    provider up asset_id start_date end_date = Gives df -> StronglySorted date_lt df.

(** ** The wording of the specification, where the code differs *)

(** The merge as the specification words it, for comparison with line 154:
    of the rows of one date the last written is kept, then the rows are
    sorted. *)
Fixpoint keep_last_per_date (df : DataFrame) : DataFrame :=
  match df with
  | [] => []
  | r :: rest =>
      if bool_decide (row_date r ∈ row_date <$> rest)
      then keep_last_per_date rest
      else r :: keep_last_per_date rest
  end.

Definition spec_merge (cached fetched : DataFrame) : DataFrame :=
  sort_index (keep_last_per_date (concat cached fetched)).

(** The specification's wording: the calls a request makes ask for no date
    that the cached entry of the key already covers. *)
Definition fetches_only_missing (strptime : string -> option date)
    (asset_id : string) (w w' : World) : Prop :=
  forall c new df lo hi s e d,
    calls w' = calls w ++ new -> c ∈ new ->
    cache w !! asset_id = Some df ->
    available_start df = Some lo -> available_end df = Some hi ->
    strptime (call_start c) = Some s -> strptime (call_end c) = Some e ->
    s <= d <= e -> ~ (lo <= d <= hi).

(** ** A concrete [strptime] for the examples

    [strptime_iso] is [datetime.strptime(s, "%Y-%m-%d").date()] on the
    zero-padded ten-character inputs, [None] elsewhere. *)
Definition digit (c : Ascii.ascii) : option Z :=
  let n := Z.of_N (Ascii.N_of_ascii c) in
  if (48 <=? n) && (n <=? 57) then Some (n - 48) else None.

Definition is_leap (y : Z) : bool :=
  ((y mod 4 =? 0) && negb (y mod 100 =? 0)) || (y mod 400 =? 0).

Definition days_in_month (y m : Z) : Z :=
  if m =? 2 then (if is_leap y then 29 else 28)
  else if (m =? 4) || (m =? 6) || (m =? 9) || (m =? 11) then 30
  else 31.

Definition make_date (y m d : Z) : option date :=
  if (1 <=? y) && (1 <=? m) && (m <=? 12) && (1 <=? d) && (d <=? days_in_month y m)
  then Some (y * 10000 + m * 100 + d)
  else None.

Definition strptime_iso (s : string) : option date :=
  match s with
  | String y1 (String y2 (String y3 (String y4 (String "-"
      (String m1 (String m2 (String "-" (String d1 (String d2 EmptyString))))))))) =>
      match digit y1, digit y2, digit y3, digit y4, digit m1, digit m2, digit d1, digit d2 with
      | Some a, Some b, Some c, Some d, Some e, Some f, Some g, Some h =>
          make_date (a * 1000 + b * 100 + c * 10 + d) (e * 10 + f) (g * 10 + h)
      | _, _, _, _, _, _, _, _ => None
      end
  | _ => None
  end.

(** A daily bar at midnight, New York time, as yfinance indexes them. *)
Definition bar (d : date) (cs : list Z) : Row :=
  {| index := {| ts_date := d; ts_time := 0; ts_tz := Some "America/New_York" |};
     cells := cs |}.

(** A provider that answers every call with the same frame. *)
Definition answering (df : DataFrame) : Upstream :=
  {| yf_history := fun _ _ _ => Gives df; get_data_fred := fun _ _ _ => Gives df |}.

(** ** Worked requests *)

(** An observation of a FRED series: a naive timestamp at midnight. *)
Definition obs (d : date) (v : Z) : Row :=
  {| index := {| ts_date := d; ts_time := 0; ts_tz := None |}; cells := [v] |}.

(** AAPL, cells [Close; Adj Close] in cents. The first answer holds the bar
    of 2023-01-03; the second, given later, holds the same bar with its
    adjusted close revised, and the bar of 2023-01-04. *)
Definition aapl_first : DataFrame := [bar 20230103 [12507; 12421]].

Definition aapl_second : DataFrame :=
  [bar 20230103 [12507; 12398]; bar 20230104 [12636; 12525]].

Definition aapl_world_1 : World :=
  (get_data strptime_iso (answering aapl_first) "AAPL" "2023-01-03" "2023-01-04" init).1.

Definition aapl_world_2 : World :=
  (get_data strptime_iso (answering aapl_second) "AAPL" "2023-01-03" "2023-01-05"
     aapl_world_1).1.

(** A macro series whose value is the same on two days, then an earlier
    observation fetched by a second request. *)
Definition rate_first : DataFrame := [obs 20230105 433; obs 20230106 433].

Definition rate_second : DataFrame := [obs 20230103 425].

Definition rate_world_1 : World :=
  (get_data strptime_iso (answering rate_first) "M_RATE" "2023-01-05" "2023-01-06" init).1.

Definition rate_world_2 : World :=
  (get_data strptime_iso (answering rate_second) "M_RATE" "2023-01-02" "2023-01-03"
     rate_world_1).1.

(** The request of the specification's scenario: AAPL is cached from
    2023-01-03 to 2023-01-13 and the request runs to 2023-01-31. *)
Definition aapl_half : DataFrame := [bar 20230103 [12507]; bar 20230113 [13476]].

Definition aapl_month : DataFrame :=
  [bar 20230103 [12507]; bar 20230113 [13476]; bar 20230131 [14429]].

Definition half_world : World :=
  (get_data strptime_iso (answering aapl_half) "AAPL" "2023-01-03" "2023-01-14" init).1.

(** A provider whose call fails, and one that has no rows. *)
Definition failing (reason : string) : Upstream :=
  {| yf_history := fun _ _ _ => Fails reason; get_data_fred := fun _ _ _ => Fails reason |}.


(** ** Notions for the further properties *)

(** The request passes the validation of lines 121-128. *)
Definition valid_request (strptime : string -> option date)
    (start_date end_date : string) : Prop :=
  exists start_dt end_dt,
    strptime start_date = Some start_dt /\ strptime end_date = Some end_dt /\
    start_dt <= end_dt.

(** The world a validated request leaves and its outcome, path by path:
    the entry is empty (the comparison with [NaT] raises), the cache covers
    the request, the adapter fails, the adapter gives rows. *)
Definition run_valid (up : Upstream) (asset_id start_date end_date : string)
    (start_dt end_dt : date) (w : World) : World * Outcome DataResponse :=
  match needs_fetch (cache w) asset_id start_dt end_dt with
  | None =>
      (locked asset_id w,
       Raise (OtherException "Cannot compare NaT with datetime.date object"))
  | Some false =>
      match cache w !! asset_id with
      | Some cached_df =>
          (set_stdout (fun out => out ++ [PrintHead (take 5 (slice start_dt end_dt cached_df))])
             (locked asset_id w),
           retrieved asset_id start_dt end_dt cached_df)
      | None => (locked asset_id w, Raise (OtherException ("'" +:+ asset_id +:+ "'")))
      end
  | Some true =>
      match provider up asset_id start_date end_date with
      | Gives (r :: rest) =>
          let entry := stored_entry (cache w) asset_id (r :: rest) in
          (set_stdout (fun out => out ++ [PrintHead (take 5 (slice start_dt end_dt entry))])
             (set_tasks (fun ts => ts ++ [(asset_id, entry)])
                (set_cache (fun c => <[asset_id := entry]> c)
                   (log_call asset_id start_date end_date (locked asset_id w)))),
           retrieved asset_id start_dt end_dt entry)
      | answer =>
          (log_call asset_id start_date end_date (locked asset_id w),
           Raise (ValueError (adapter_error asset_id answer)))
      end
  end.

(** The name of the blob of a key (line 90). *)
Definition blob_name_of (asset_id : string) : string := asset_id +:+ ".csv.gz".

(** What a backup task has to upload, or the text of the first exception
    on its way: from the CSV writer, gzip, the blob client or the upload. *)
Definition backup_payload (st : Storage) (asset_id : string) (data : DataFrame) : Ext string :=
  match to_csv st data with
  | Fails m => Fails m
  | Gives csv_bytes =>
      match gzip_write st csv_bytes with
      | Fails m => Fails m
      | Gives compressed_data =>
          match get_blob_client st (blob_name_of asset_id) with
          | Fails m => Fails m
          | Gives _ =>
              match upload_blob st (blob_name_of asset_id) compressed_data with
              | Fails m => Fails m
              | Gives _ => Gives compressed_data
              end
          end
      end
  end.

(** Every pending backup task holds rows, for a key that is cached and
    has its lock. *)
Definition tasks_sound (w : World) : Prop :=
  forall asset_id data, (asset_id, data) ∈ tasks w ->
    data <> [] /\ is_Some (cache w !! asset_id) /\ asset_id ∈ asset_locks w.

(** Every cached key has its lock. *)
Definition cached_keys_locked (w : World) : Prop :=
  forall asset_id, is_Some (cache w !! asset_id) -> asset_id ∈ asset_locks w.

(** Worked data: a series with a repeated value, a storage that works, one
    whose upload fails, and a request over a weekend. *)
Definition working_storage : Storage :=
  {| to_csv := fun _ => Gives "csv"; gzip_write := fun s => Gives ("gz:" +:+ s);
     get_blob_client := fun _ => Gives tt; upload_blob := fun _ _ => Gives tt |}.

Definition aapl_week : DataFrame := [bar 20230109 [13015]; bar 20230113 [13476]].

(** ** Notions for the revised statements *)

(** The providers answer a key in one time zone: every index entry of a
    frame given for a key carries the tzinfo [tz_of] of that key (the zone
    of the exchange for a ticker, none for a FRED series). *)
Definition zoned_answers (tz_of : string -> option string) (up : Upstream) : Prop :=
  forall asset_id start_date end_date df,
    provider up asset_id start_date end_date = Gives df ->
    Forall (fun row => ts_tz (index row) = tz_of asset_id) df.

(** Every index entry of every cached frame carries the tzinfo of its key. *)
Definition cache_zoned (tz_of : string -> option string) (w : World) : Prop :=
  forall asset_id df, cache w !! asset_id = Some df ->
    Forall (fun row => ts_tz (index row) = tz_of asset_id) df.

(** The same request, sent once for each of the providers' states in turn. *)
Fixpoint repeat_request (strptime : string -> option date) (ups : list Upstream)
    (asset_id start_date end_date : string) (w : World) : World :=
  match ups with
  | [] => w
  | up :: rest =>
      repeat_request strptime rest asset_id start_date end_date
        (get_data strptime up asset_id start_date end_date w).1
  end.

(** The rows of a frame fall short of the request at one of its ends: they
    are all dated after its start date, or all dated before its end date. *)
Definition short_of (start_dt end_dt : date) (at_start : bool) (df : DataFrame) : Prop :=
  Forall (fun row => if at_start then start_dt < row_date row else row_date row < end_dt) df.

(** What a provider gives for the request falls short of it in that way,
    when it gives anything. *)
Definition answer_short_of (start_dt end_dt : date) (at_start : bool)
    (asset_id start_date end_date : string) (up : Upstream) : Prop :=
  match provider up asset_id start_date end_date with
  | Gives df => short_of start_dt end_dt at_start df
  | Fails _ => True
  end.

(** The entry of the key, if there is one, holds rows that all fall short
    of the request at the same end. *)
Definition entry_short_of (start_dt end_dt : date) (at_start : bool)
    (asset_id : string) (w : World) : Prop :=
  match cache w !! asset_id with
  | Some df => df <> [] /\ short_of start_dt end_dt at_start df
  | None => True
  end.

(** An answer in descending order of its dates, and the world a first
    request leaves with it. *)
Definition aapl_descending : DataFrame := [bar 20230113 [13476]; bar 20230103 [12507]].

Definition descending_world : World :=
  (get_data strptime_iso (answering aapl_descending) "AAPL" "2023-01-03" "2023-01-13" init).1.



(** The world a first request over a weekend leaves: the provider had the
    bars of the following week only. *)
Definition week_world : World :=
  (get_data strptime_iso (answering aapl_week) "AAPL" "2023-01-07" "2023-01-15" init).1.

(** The world a request for TSLA leaves after [half_world]. *)
Definition tsla_world : World :=
  (get_data strptime_iso (answering [bar 20230103 [10810]]) "TSLA" "2023-01-03" "2023-01-04"
     half_world).1.

(** * Part III: properties of the embedding *)

(** ** The order of index entries *)

Lemma ts_leb_refl a : ts_leb a a = true.
Proof. unfold ts_leb. lia. Qed.

Lemma ts_leb_total a b : ts_leb a b = false -> ts_leb b a = true.
Proof. unfold ts_leb. lia. Qed.

Lemma ts_leb_trans a b c : ts_leb a b = true -> ts_leb b c = true -> ts_leb a c = true.
Proof. unfold ts_leb. lia. Qed.

Lemma ts_leb_date a b : ts_leb a b = true -> to_date a <= to_date b.
Proof. unfold ts_leb, to_date. lia. Qed.

Lemma row_le_date_le a b : row_le a b -> date_le a b.
Proof. apply ts_leb_date. Qed.

Lemma row_le_trans a b c : row_le a b -> row_le b c -> row_le a c.
Proof. apply ts_leb_trans. Qed.

(** ** [sort_index] sorts, keeps the rows, and leaves a sorted frame alone *)

Lemma insert_row_perm r df : insert_row r df ≡ₚ r :: df.
Proof.
  induction df as [|x rest IH]; simpl; [done|].
  destruct (ts_leb (index r) (index x)); [done|].
  rewrite IH. apply Permutation_swap.
Qed.

Lemma sort_index_perm df : sort_index df ≡ₚ df.
Proof.
  induction df as [|r rest IH]; simpl; [done|].
  by rewrite insert_row_perm, IH.
Qed.

Lemma insert_row_sorted r df :
  StronglySorted row_le df -> StronglySorted row_le (insert_row r df).
Proof.
  induction 1 as [|x rest Hs IH Hx]; simpl.
  - repeat constructor.
  - destruct (ts_leb (index r) (index x)) eqn:E.
    + constructor; [by constructor|].
      constructor; [exact E|].
      eapply Forall_impl; [exact Hx|].
      intros y Hy. eapply row_le_trans; [exact E|exact Hy].
    + constructor; [exact IH|].
      rewrite insert_row_perm. constructor; [|exact Hx].
      by apply ts_leb_total.
Qed.

Lemma sort_index_sorted df : StronglySorted row_le (sort_index df).
Proof.
  induction df as [|r rest IH]; simpl; [constructor|].
  by apply insert_row_sorted.
Qed.

Lemma insert_row_head r df :
  Forall (row_le r) df -> insert_row r df = r :: df.
Proof.
  destruct 1 as [|x rest Hx _]; simpl; [done|].
  unfold row_le, ts_le in Hx. by rewrite Hx.
Qed.

Lemma sort_index_id df : StronglySorted row_le df -> sort_index df = df.
Proof.
  induction 1 as [|x rest Hs IH Hx]; simpl; [done|].
  rewrite IH. by apply insert_row_head.
Qed.

Lemma sorted_row_date df : StronglySorted row_le df -> StronglySorted date_le df.
Proof.
  induction 1 as [|x rest Hs IH Hx]; constructor; [done|].
  eapply Forall_impl; [exact Hx|]. intros y. apply row_le_date_le.
Qed.

(** Rows picked from a sorted frame, in its order, are sorted. *)
Lemma sorted_sublist (R : Row -> Row -> Prop) (l1 l2 : DataFrame) :
  sublist l1 l2 -> StronglySorted R l2 -> StronglySorted R l1.
Proof.
  induction 1 as [|x l1 l2 Hsub IH|x l1 l2 Hsub IH]; intros Hs.
  - constructor.
  - apply StronglySorted_inv in Hs as [Hs Hx]. constructor; [by apply IH|].
    rewrite Forall_forall in Hx |- *. intros y Hy.
    apply Hx. by eapply sublist_subseteq.
  - apply StronglySorted_inv in Hs as [Hs _]. by apply IH.
Qed.

(** ** [drop_duplicates]: what it keeps and what it drops *)

Lemma drop_duplicates_from_sublist seen df : sublist (drop_duplicates_from seen df) df.
Proof.
  revert seen. induction df as [|r rest IH]; intros seen; simpl; [constructor|].
  case_bool_decide.
  - by apply sublist_cons.
  - by apply sublist_skip.
Qed.

Lemma drop_duplicates_sublist df : sublist (drop_duplicates df) df.
Proof. apply drop_duplicates_from_sublist. Qed.

(** The first row of a frame is never dropped. *)
Lemma drop_duplicates_head r df :
  exists rest, drop_duplicates (r :: df) = r :: rest /\ sublist rest df.
Proof.
  unfold drop_duplicates. simpl.
  eexists. split; [done|]. apply drop_duplicates_from_sublist.
Qed.

(** Every tuple of cells of the input is still there, or was seen before. *)
Lemma drop_duplicates_from_cells seen df r :
  r ∈ df -> cells r ∈ seen \/ cells r ∈ cells <$> drop_duplicates_from seen df.
Proof.
  revert seen. induction df as [|x rest IH]; intros seen Hr; [by inversion Hr|].
  simpl. apply elem_of_cons in Hr as [->|Hr].
  - case_bool_decide; [by left|]. right. simpl. apply elem_of_cons. by left.
  - case_bool_decide.
    + by apply IH.
    + destruct (IH (cells x :: seen) Hr) as [Hs|Hs].
      * apply elem_of_cons in Hs as [Hs|Hs]; [|by left].
        right. simpl. apply elem_of_cons. by left.
      * right. simpl. apply elem_of_cons. by right.
Qed.

(** No tuple of cells is kept twice, nor kept when it was seen before. *)
Lemma drop_duplicates_from_NoDup seen df :
  NoDup (cells <$> drop_duplicates_from seen df) /\
  (forall c, c ∈ seen -> c ∉ cells <$> drop_duplicates_from seen df).
Proof.
  revert seen. induction df as [|x rest IH]; intros seen; simpl.
  - split; [constructor|]. intros c _ Hc. by inversion Hc.
  - case_bool_decide as Hx; [apply IH|].
    destruct (IH (cells x :: seen)) as [Hnd Hseen]. simpl. split.
    + constructor; [|done]. apply Hseen, elem_of_cons. by left.
    + intros c Hc Hin. apply elem_of_cons in Hin as [->|Hin]; [done|].
      eapply Hseen; [|exact Hin]. apply elem_of_cons. by right.
Qed.

Lemma drop_duplicates_NoDup df : NoDup (cells <$> drop_duplicates df).
Proof. apply drop_duplicates_from_NoDup. Qed.

(** A frame without repeated cells loses nothing; rows whose cells were
    all seen are all dropped. *)
Lemma drop_duplicates_from_id seen df :
  NoDup (cells <$> df) -> (forall r, r ∈ df -> cells r ∉ seen) ->
  drop_duplicates_from seen df = df.
Proof.
  revert seen. induction df as [|x rest IH]; intros seen Hnd Hseen; simpl; [done|].
  simpl in Hnd. apply NoDup_cons in Hnd as [Hx Hnd].
  case_bool_decide as Hin.
  - exfalso. eapply Hseen; [|exact Hin]. apply elem_of_cons. by left.
  - f_equal. apply IH; [done|].
    intros r Hr Hc. apply elem_of_cons in Hc as [Hc|Hc].
    + apply Hx. rewrite <- Hc. by apply list_elem_of_fmap_2.
    + eapply Hseen; [|exact Hc]. apply elem_of_cons. by right.
Qed.

Lemma drop_duplicates_from_seen seen df :
  (forall r, r ∈ df -> cells r ∈ seen) -> drop_duplicates_from seen df = [].
Proof.
  induction df as [|x rest IH]; intros Hseen; simpl; [done|].
  case_bool_decide as Hin.
  - apply IH. intros r Hr. apply Hseen, elem_of_cons. by right.
  - exfalso. apply Hin, Hseen, elem_of_cons. by left.
Qed.

Lemma drop_duplicates_from_app seen a b :
  drop_duplicates_from seen (a ++ b) =
  drop_duplicates_from seen a ++
  drop_duplicates_from ((reverse (cells <$> drop_duplicates_from seen a)) ++ seen) b.
Proof.
  revert seen. induction a as [|x rest IH]; intros seen; simpl; [done|].
  case_bool_decide.
  - apply IH.
  - simpl. f_equal. rewrite IH. do 2 f_equal.
    rewrite reverse_cons, <- app_assoc. done.
Qed.

(** ** The coverage of a frame: [index.min().date()], [index.max().date()] *)

Lemma index_min_None df : index_min df = None <-> df = [].
Proof.
  destruct df as [|r rest]; simpl; [done|].
  destruct (index_min rest); split; done.
Qed.

Lemma index_max_None df : index_max df = None <-> df = [].
Proof.
  destruct df as [|r rest]; simpl; [done|].
  destruct (index_max rest); split; done.
Qed.

Lemma index_min_spec df m :
  index_min df = Some m ->
  m ∈ index <$> df /\ Forall (fun r => ts_le m (index r)) df.
Proof.
  revert m. induction df as [|r rest IH]; intros m; simpl; [done|].
  destruct (index_min rest) as [m0|] eqn:E.
  - destruct (IH m0 eq_refl) as [Hin Hall].
    destruct (ts_leb (index r) m0) eqn:L; intros [= <-].
    + split; [apply elem_of_cons; by left|].
      constructor; [apply ts_leb_refl|].
      eapply Forall_impl; [exact Hall|].
      intros y Hy. eapply ts_leb_trans; [exact L|exact Hy].
    + split; [apply elem_of_cons; by right|].
      constructor; [by apply ts_leb_total|done].
  - apply index_min_None in E as ->. intros [= <-]. split.
    + apply elem_of_cons. by left.
    + repeat constructor. apply ts_leb_refl.
Qed.

Lemma index_max_spec df m :
  index_max df = Some m ->
  m ∈ index <$> df /\ Forall (fun r => ts_le (index r) m) df.
Proof.
  revert m. induction df as [|r rest IH]; intros m; simpl; [done|].
  destruct (index_max rest) as [m0|] eqn:E.
  - destruct (IH m0 eq_refl) as [Hin Hall].
    destruct (ts_leb (index r) m0) eqn:L; intros [= <-].
    + split; [apply elem_of_cons; by right|].
      constructor; [exact L|done].
    + split; [apply elem_of_cons; by left|].
      constructor; [apply ts_leb_refl|].
      eapply Forall_impl; [exact Hall|].
      intros y Hy. eapply ts_leb_trans; [exact Hy|by apply ts_leb_total].
  - apply index_max_None in E as ->. intros [= <-]. split.
    + apply elem_of_cons. by left.
    + repeat constructor. apply ts_leb_refl.
Qed.

(** Truncating the least entry gives the least date: the time of day and
    the tzinfo of the entries do not show in [available_start]. *)
Lemma available_start_dates df : available_start df = min_date (row_date <$> df).
Proof.
  unfold available_start.
  induction df as [|r rest IH]; [done|].
  rewrite fmap_cons. cbn [index_min min_date]. rewrite <- IH.
  destruct (index_min rest) as [m0|]; simpl; [|done].
  f_equal. destruct (ts_leb (index r) m0) eqn:L.
  - apply ts_leb_date in L. unfold row_date. lia.
  - apply ts_leb_total, ts_leb_date in L. unfold row_date. lia.
Qed.

Lemma available_end_dates df : available_end df = max_date (row_date <$> df).
Proof.
  unfold available_end.
  induction df as [|r rest IH]; [done|].
  rewrite fmap_cons. cbn [index_max max_date]. rewrite <- IH.
  destruct (index_max rest) as [m0|]; simpl; [|done].
  f_equal. destruct (ts_leb (index r) m0) eqn:L.
  - apply ts_leb_date in L. unfold row_date. lia.
  - apply ts_leb_total, ts_leb_date in L. unfold row_date. lia.
Qed.

Lemma min_date_spec ds m :
  min_date ds = Some m -> m ∈ ds /\ Forall (fun d => m <= d) ds.
Proof.
  revert m. induction ds as [|d rest IH]; intros m; simpl; [done|].
  destruct (min_date rest) as [m0|] eqn:E.
  - destruct (IH m0 eq_refl) as [Hin Hall]. intros [= <-]. split.
    + destruct (Z.min_spec d m0) as [[_ ->]|[_ ->]]; apply elem_of_cons; auto.
    + constructor; [lia|]. eapply Forall_impl; [exact Hall|]. simpl. lia.
  - destruct rest as [|d' rest]; [|simpl in E; by destruct (min_date rest)].
    intros [= <-]. split; [apply elem_of_cons; by left|]. repeat constructor. lia.
Qed.

Lemma max_date_spec ds m :
  max_date ds = Some m -> m ∈ ds /\ Forall (fun d => d <= m) ds.
Proof.
  revert m. induction ds as [|d rest IH]; intros m; simpl; [done|].
  destruct (max_date rest) as [m0|] eqn:E.
  - destruct (IH m0 eq_refl) as [Hin Hall]. intros [= <-]. split.
    + destruct (Z.max_spec d m0) as [[_ ->]|[_ ->]]; apply elem_of_cons; auto.
    + constructor; [lia|]. eapply Forall_impl; [exact Hall|]. simpl. lia.
  - destruct rest as [|d' rest]; [|simpl in E; by destruct (max_date rest)].
    intros [= <-]. split; [apply elem_of_cons; by left|]. repeat constructor. lia.
Qed.

(** ** The merge of line 154 *)

Lemma merge_frames_perm cached fetched :
  merge_frames cached fetched ≡ₚ drop_duplicates (cached ++ fetched).
Proof. apply sort_index_perm. Qed.

Lemma merge_frames_sorted cached fetched :
  StronglySorted row_le (merge_frames cached fetched).
Proof. apply sort_index_sorted. Qed.

Lemma merge_frames_NoDup_cells cached fetched :
  NoDup (cells <$> merge_frames cached fetched).
Proof.
  rewrite merge_frames_perm. apply drop_duplicates_NoDup.
Qed.

(** The first row of the cached frame survives every merge. *)
Lemma merge_frames_keeps_head r cached fetched :
  r ∈ merge_frames (r :: cached) fetched.
Proof.
  rewrite merge_frames_perm. simpl.
  destruct (drop_duplicates_head r (cached ++ fetched)) as (rest & -> & _).
  apply elem_of_cons. by left.
Qed.

Lemma merge_frames_nonempty cached fetched :
  cached <> [] -> merge_frames cached fetched <> [].
Proof.
  destruct cached as [|r cached]; [done|]. intros _ E.
  pose proof (merge_frames_keeps_head r cached fetched) as H.
  rewrite E in H. inversion H.
Qed.

(** X11. For a key that is cached, merging the same fetched frame a
    second time changes nothing: the entry after the second merge is the
    entry after the first. *)
Lemma merge_frames_again cached fetched :
  merge_frames (merge_frames cached fetched) fetched = merge_frames cached fetched.
Proof.
  set (m := merge_frames cached fetched).
  assert (Hdd : drop_duplicates (m ++ fetched) = m).
  { unfold drop_duplicates. rewrite drop_duplicates_from_app.
    rewrite (drop_duplicates_from_id [] m).
    - rewrite drop_duplicates_from_seen; [by rewrite app_nil_r|].
      intros r Hr. rewrite app_nil_r, elem_of_reverse.
      unfold m. rewrite merge_frames_perm.
      destruct (drop_duplicates_from_cells [] (cached ++ fetched) r) as [H|H].
      + apply elem_of_app. by right.
      + inversion H.
      + exact H.
    - apply merge_frames_NoDup_cells.
    - intros r _ H. inversion H. }
  unfold merge_frames at 1. unfold concat. rewrite Hdd.
  apply sort_index_id, merge_frames_sorted.
Qed.

(** X12. The first row of the cached frame is never dropped, so the
    covered range of an entry that is in ascending order of its index
    starts no later after a merge than before. *)
Lemma merge_frames_start cached fetched lo :
  StronglySorted row_le cached ->
  available_start cached = Some lo ->
  exists lo', available_start (merge_frames cached fetched) = Some lo' /\ lo' <= lo.
Proof.
  intros Hs Hlo. destruct cached as [|r cached]; [done|].
  assert (lo = row_date r) as ->.
  { unfold available_start in Hlo.
    destruct (index_min (r :: cached)) as [m|] eqn:E; [|done].
    injection Hlo as <-. apply index_min_spec in E as [Hin Hall].
    apply StronglySorted_inv in Hs as [_ Hr].
    apply Forall_cons in Hall as [Hm _].
    apply ts_leb_date in Hm. unfold row_date.
    apply list_elem_of_fmap in Hin as (x & -> & Hx).
    apply elem_of_cons in Hx as [->|Hx]; [done|].
    rewrite Forall_forall in Hr. apply Hr, row_le_date_le in Hx.
    unfold date_le, row_date in Hx. lia. }
  pose proof (merge_frames_keeps_head r cached fetched) as Hin.
  unfold available_start.
  destruct (index_min (merge_frames (r :: cached) fetched)) as [m|] eqn:E.
  - exists (to_date m). split; [done|].
    apply index_min_spec in E as [_ Hall].
    rewrite Forall_forall in Hall. apply ts_leb_date, Hall, Hin.
  - apply index_min_None in E. rewrite E in Hin. inversion Hin.
Qed.

(** ** The steps of the handler, one at a time *)

Ltac run_M :=
  unfold bind, ret, raise, modify, gets, try_except, print, call_ext, create_task; simpl.

Lemma fetch_gives up asset_id start_date end_date df w :
  provider up asset_id start_date end_date = Gives df -> df <> [] ->
  fetch up asset_id start_date end_date w =
    (log_call asset_id start_date end_date w, Return df).
Proof.
  unfold provider, fetch, log_call, source_of, fetch_fred, fetch_yahoo_finance.
  intros Hp Hne. destruct (is_macro_metric asset_id); run_M; rewrite Hp; simpl;
    by destruct df.
Qed.

Lemma fetch_fails up asset_id start_date end_date w :
  adapter_fails (provider up asset_id start_date end_date) ->
  fetch up asset_id start_date end_date w =
    (log_call asset_id start_date end_date w,
     Raise (ValueError (adapter_error asset_id (provider up asset_id start_date end_date)))).
Proof.
  unfold provider, fetch, log_call, source_of, adapter_error, fetch_fred, fetch_yahoo_finance.
  intros Hp. destruct (is_macro_metric asset_id); run_M;
    match goal with
    | H : adapter_fails ?r |- _ => destruct r as [df|m]; simpl in H; subst; simpl
    end; done.
Qed.

Lemma update_cache_stored asset_id fetched_df w :
  update_cache asset_id fetched_df w =
    (set_cache (fun c => <[asset_id := stored_entry c asset_id fetched_df]> c) w, Return tt).
Proof.
  unfold update_cache, modify, set_cache, stored_entry. simpl.
  by destruct (cache w !! asset_id).
Qed.

Lemma retrieve_present asset_id start_dt end_dt cached_df w :
  cache w !! asset_id = Some cached_df ->
  retrieve asset_id start_dt end_dt w =
    (set_stdout (fun out => out ++ [PrintHead (take 5 (slice start_dt end_dt cached_df))]) w,
     retrieved asset_id start_dt end_dt cached_df).
Proof.
  intros Hc. unfold retrieve, cache_get, retrieved, slice. run_M. rewrite Hc.
  by destruct (filter (in_range start_dt end_dt) cached_df).
Qed.

Section HandlerFacts.

Variable strptime : string -> option date.

Lemma validate_ok start_date end_date start_dt end_dt w :
  strptime start_date = Some start_dt -> strptime end_date = Some end_dt ->
  start_dt <= end_dt ->
  validate strptime start_date end_date w = (w, Return (start_dt, end_dt)).
Proof.
  intros Hs He Hle. unfold validate, parse_date. run_M. rewrite Hs, He. simpl.
  destruct (end_dt <? start_dt) eqn:E; [lia|done].
Qed.

(** A request that fails validation leaves the world as it was. *)
Lemma validate_world start_date end_date w :
  (validate strptime start_date end_date w).1 = w.
Proof.
  unfold validate, parse_date. run_M.
  destruct (strptime start_date); simpl; [|done].
  destruct (strptime end_date) as [e|]; simpl; [|done].
  by destruct (e <? _).
Qed.

Lemma fetch_and_store_gives up asset_id start_date end_date df w :
  provider up asset_id start_date end_date = Gives df -> df <> [] ->
  fetch_and_store up asset_id start_date end_date w =
    (set_tasks (fun ts => ts ++ [(asset_id, stored_entry (cache w) asset_id df)])
       (set_cache (fun c => <[asset_id := stored_entry c asset_id df]> c)
          (log_call asset_id start_date end_date w)),
     Return tt).
Proof.
  intros Hp Hne. unfold fetch_and_store, bind.
  rewrite (fetch_gives _ _ _ _ _ _ Hp Hne), update_cache_stored.
  unfold cache_get. simpl. rewrite lookup_insert_eq. done.
Qed.

Lemma fetch_and_store_fails up asset_id start_date end_date w :
  adapter_fails (provider up asset_id start_date end_date) ->
  fetch_and_store up asset_id start_date end_date w =
    (log_call asset_id start_date end_date w,
     Raise (ValueError (adapter_error asset_id (provider up asset_id start_date end_date)))).
Proof.
  intros Hp. unfold fetch_and_store, bind.
  by rewrite (fetch_fails _ _ _ _ w Hp).
Qed.

Lemma check_cache_needs_fetch asset_id start_dt end_dt w :
  check_cache asset_id start_dt end_dt w =
    (w, match needs_fetch (cache w) asset_id start_dt end_dt with
        | Some b => Return b
        | None => Raise (OtherException "Cannot compare NaT with datetime.date object")
        end).
Proof.
  unfold check_cache, needs_fetch. run_M.
  destruct (cache w !! asset_id) as [df|]; [|done].
  destruct (index_min df), (index_max df); done.
Qed.

(** [get_data] on a request that passes validation. *)
Lemma get_data_valid up asset_id start_date end_date start_dt end_dt w :
  strptime start_date = Some start_dt -> strptime end_date = Some end_dt ->
  start_dt <= end_dt ->
  get_data strptime up asset_id start_date end_date w =
    match needs_fetch (cache w) asset_id start_dt end_dt with
    | Some true =>
        (fetch_and_store up asset_id start_date end_date ;;;
         retrieve asset_id start_dt end_dt) (locked asset_id w)
    | Some false => retrieve asset_id start_dt end_dt (locked asset_id w)
    | None =>
        (locked asset_id w,
         Raise (OtherException "Cannot compare NaT with datetime.date object"))
    end.
Proof.
  intros Hs He Hle. unfold get_data. unfold bind at 1.
  rewrite (validate_ok _ _ _ _ _ Hs He Hle). cbn [fst snd].
  unfold bind at 1. unfold get_or_create_lock, modify. fold (locked asset_id w).
  unfold bind at 1. rewrite check_cache_needs_fetch.
  change (cache (locked asset_id w)) with (cache w).
  destruct (needs_fetch (cache w) asset_id start_dt end_dt) as [[|]|]; done.
Qed.

(** The fetch succeeds: the entry is stored, a backup task is created and
    the answer is read off the stored entry. *)
Lemma get_data_fetched up asset_id start_date end_date start_dt end_dt df w :
  strptime start_date = Some start_dt -> strptime end_date = Some end_dt ->
  start_dt <= end_dt ->
  needs_fetch (cache w) asset_id start_dt end_dt = Some true ->
  provider up asset_id start_date end_date = Gives df -> df <> [] ->
  let entry := stored_entry (cache w) asset_id df in
  let w' := (get_data strptime up asset_id start_date end_date w).1 in
  cache w' = <[asset_id := entry]> (cache w) /\
  calls w' = calls w ++ [mkCall (source_of asset_id) asset_id start_date end_date] /\
  tasks w' = tasks w ++ [(asset_id, entry)] /\
  (get_data strptime up asset_id start_date end_date w).2 =
    retrieved asset_id start_dt end_dt entry.
Proof.
  intros Hs He Hle Hn Hp Hne. simpl.
  rewrite (get_data_valid _ _ _ _ _ _ _ Hs He Hle), Hn.
  unfold bind. rewrite (fetch_and_store_gives _ _ _ _ _ _ Hp Hne).
  erewrite retrieve_present; [done|]. simpl. apply lookup_insert_eq.
Qed.

(** The adapter fails: nothing is stored and its [ValueError] is the
    outcome of [get_data]. *)
Lemma get_data_adapter_fails up asset_id start_date end_date start_dt end_dt w :
  strptime start_date = Some start_dt -> strptime end_date = Some end_dt ->
  start_dt <= end_dt ->
  needs_fetch (cache w) asset_id start_dt end_dt = Some true ->
  adapter_fails (provider up asset_id start_date end_date) ->
  let w' := (get_data strptime up asset_id start_date end_date w).1 in
  cache w' = cache w /\
  calls w' = calls w ++ [mkCall (source_of asset_id) asset_id start_date end_date] /\
  tasks w' = tasks w /\
  (get_data strptime up asset_id start_date end_date w).2 =
    Raise (ValueError (adapter_error asset_id (provider up asset_id start_date end_date))).
Proof.
  intros Hs He Hle Hn Hp. simpl.
  rewrite (get_data_valid _ _ _ _ _ _ _ Hs He Hle), Hn.
  unfold bind.
  by rewrite (fetch_and_store_fails up  _ _ _ (locked asset_id w) Hp).
Qed.

(** No fetch is needed: the answer is read off the entry as it is. *)
Lemma get_data_cached up asset_id start_date end_date start_dt end_dt cached_df w :
  strptime start_date = Some start_dt -> strptime end_date = Some end_dt ->
  start_dt <= end_dt ->
  needs_fetch (cache w) asset_id start_dt end_dt = Some false ->
  cache w !! asset_id = Some cached_df ->
  let w' := (get_data strptime up asset_id start_date end_date w).1 in
  cache w' = cache w /\ calls w' = calls w /\ tasks w' = tasks w /\
  (get_data strptime up asset_id start_date end_date w).2 =
    retrieved asset_id start_dt end_dt cached_df.
Proof.
  intros Hs He Hle Hn Hc. simpl.
  rewrite (get_data_valid _ _ _ _ _ _ _ Hs He Hle), Hn.
  by erewrite retrieve_present.
Qed.

(** A request that fails validation is answered 400 and leaves the world
    untouched. *)
Lemma get_data_invalid up asset_id start_date end_date :
  (forall start_dt end_dt,
      strptime start_date = Some start_dt -> strptime end_date = Some end_dt ->
      end_dt < start_dt) ->
  exists detail, forall w,
    get_data strptime up asset_id start_date end_date w =
      (w, Raise (HTTPException 400 detail)).
Proof.
  intros H. unfold get_data, validate, parse_date. run_M.
  destruct (strptime start_date) as [s0|] eqn:Es; simpl; [|eauto].
  destruct (strptime end_date) as [e0|] eqn:Ee; simpl; [|eauto].
  specialize (H _ _ eq_refl eq_refl).
  destruct (e0 <? s0) eqn:L; [eauto|lia].
Qed.

End HandlerFacts.

(** ** What a step does to the cache *)

Section Invariants.

Variable strptime : string -> option date.

(** A request has two dates that validate, or it has not. *)
Lemma validity start_date end_date :
  (exists start_dt end_dt,
      strptime start_date = Some start_dt /\ strptime end_date = Some end_dt /\
      start_dt <= end_dt) \/
  (forall start_dt end_dt,
      strptime start_date = Some start_dt -> strptime end_date = Some end_dt ->
      end_dt < start_dt).
Proof.
  destruct (strptime start_date) as [s|]; [|by right].
  destruct (strptime end_date) as [e|]; [|by right].
  destruct (decide (s <= e)); [left; eauto|].
  right. intros ? ? [= <-] [= <-]. lia.
Qed.

(** A request changes the cache at most at its key, and only by storing
    a non-empty frame the provider gave. *)
Lemma get_data_cache up asset_id start_date end_date w :
  let w' := (get_data strptime up asset_id start_date end_date w).1 in
  cache w' = cache w \/
  exists df, df <> [] /\ provider up asset_id start_date end_date = Gives df /\
    cache w' = <[asset_id := stored_entry (cache w) asset_id df]> (cache w).
Proof.
  simpl.
  destruct (validity start_date end_date) as [(s & e & Es & Ee & Hle)|Hbad];
    [|left; by destruct (get_data_invalid strptime up asset_id _ _ Hbad) as [d ->]].
  destruct (needs_fetch (cache w) asset_id s e) as [[|]|] eqn:Hn.
  - destruct (provider up asset_id start_date end_date) as [[|r df]|m] eqn:Hp.
    + left. eapply get_data_adapter_fails; eauto. by rewrite Hp.
    + right. exists (r :: df). split; [done|]. split; [done|].
      eapply get_data_fetched; eauto.
    + left. eapply get_data_adapter_fails; eauto. by rewrite Hp.
  - left. rewrite (get_data_valid _ _ _ _ _ _ _ _ Es Ee Hle), Hn.
    unfold retrieve, cache_get. run_M.
    change (cache (locked asset_id w)) with (cache w).
    destruct (cache w !! asset_id); [|done]. simpl.
    by destruct (filter _ _).
  - left. by rewrite (get_data_valid _ _ _ _ _ _ _ _ Es Ee Hle), Hn.
Qed.

(** The backup task: whatever the libraries do, it returns normally and
    touches neither the cache, nor the locks, nor the tasks. *)
Lemma backup_to_azure_contained st asset_id data w :
  (backup_to_azure st asset_id data w).2 = Return tt /\
  cache (backup_to_azure st asset_id data w).1 = cache w /\
  asset_locks (backup_to_azure st asset_id data w).1 = asset_locks w /\
  tasks (backup_to_azure st asset_id data w).1 = tasks w /\
  calls (backup_to_azure st asset_id data w).1 = calls w.
Proof.
  unfold backup_to_azure. run_M.
  destruct (to_csv st data) as [csv|m1]; run_M; [|done].
  destruct (gzip_write st csv) as [gz|m2]; run_M; [|done].
  destruct (get_blob_client st _) as [[]|m3]; run_M; [|done].
  destruct (upload_blob st _ gz) as [[]|m4]; run_M; done.
Qed.

Lemma invariant_reachable (good : Upstream -> Prop) (P : World -> Prop) :
  P init ->
  (forall w w', P w -> step strptime good w w' -> P w') ->
  forall w, rtc (step strptime good) init w -> P w.
Proof.
  intros Hinit Hstep. apply rtc_ind_r; [exact Hinit|].
  intros w w' _ Hww' Hw. by eapply Hstep.
Qed.

Lemma stored_entry_nonempty c asset_id df :
  (forall cached, c !! asset_id = Some cached -> cached <> []) ->
  df <> [] -> stored_entry c asset_id df <> [].
Proof.
  intros Hc Hdf. unfold stored_entry.
  destruct (c !! asset_id) as [cached|] eqn:E; [|done].
  apply merge_frames_nonempty. by apply Hc.
Qed.

Lemma step_nonempty good w w' :
  cache_nonempty w -> step strptime good w w' -> cache_nonempty w'.
Proof.
  intros Hw Hstep. destruct Hstep as [up k sd ed w _|st k data pre post w _].
  - destruct (get_data_cache up k sd ed w) as [E|(df & Hne & _ & E)];
      simpl in E; intros k' df'; rewrite E; [apply Hw|].
    destruct (decide (k = k')) as [<-|Hk].
    + rewrite lookup_insert_eq. intros [= <-].
      apply stored_entry_nonempty; [apply Hw|done].
    + rewrite lookup_insert_ne by done. apply Hw.
  - intros k' df'.
    destruct (backup_to_azure_contained st k data (set_tasks (fun _ => pre ++ post) w))
      as (_ & -> & _).
    apply Hw.
Qed.

Lemma reachable_nonempty w : reachable strptime w -> cache_nonempty w.
Proof.
  apply invariant_reachable.
  - intros k df H. cbn in H. by rewrite lookup_empty in H.
  - intros ? ?. apply step_nonempty.
Qed.

Lemma step_sorted w w' :
  cache_sorted w -> step strptime ascending_answers w w' -> cache_sorted w'.
Proof.
  intros Hw Hstep. destruct Hstep as [up k sd ed w Hup|st k data pre post w _].
  - destruct (get_data_cache up k sd ed w) as [E|(df & Hne & Hp & E)];
      simpl in E; intros k' df'; rewrite E; [apply Hw|].
    destruct (decide (k = k')) as [<-|Hk].
    + rewrite lookup_insert_eq. intros [= <-]. unfold stored_entry.
      destruct (cache w !! k); [apply merge_frames_sorted|by eapply Hup].
    + rewrite lookup_insert_ne by done. apply Hw.
  - intros k' df'.
    destruct (backup_to_azure_contained st k data (set_tasks (fun _ => pre ++ post) w))
      as (_ & -> & _).
    apply Hw.
Qed.

(** X15. When every frame the providers give is in ascending order of its
    index, every entry of the cache is in ascending order of its index,
    hence of its dates (ties allowed), in every world the process reaches. *)
Lemma reachable_sorted w :
  rtc (step strptime ascending_answers) init w -> cache_sorted w.
Proof.
  apply invariant_reachable.
  - intros k df H. cbn in H. by rewrite lookup_empty in H.
  - intros ? ?. apply step_sorted.
Qed.

End Invariants.

(** ** What a request reads *)

Section Requests.

Variable strptime : string -> option date.

(** When [needs_fetch] is true the provider is called once, with the
    dates of the request as they came. *)
Lemma get_data_fetch_call up asset_id start_date end_date start_dt end_dt w :
  strptime start_date = Some start_dt -> strptime end_date = Some end_dt ->
  start_dt <= end_dt ->
  needs_fetch (cache w) asset_id start_dt end_dt = Some true ->
  calls (get_data strptime up asset_id start_date end_date w).1 =
    calls w ++ [mkCall (source_of asset_id) asset_id start_date end_date].
Proof.
  intros Hs He Hle Hn.
  destruct (provider up asset_id start_date end_date) as [[|r df]|m] eqn:Hp.
  - eapply get_data_adapter_fails; eauto. by rewrite Hp.
  - eapply (get_data_fetched strptime up _ _ _ _ _ (r :: df)); eauto.
  - eapply get_data_adapter_fails; eauto. by rewrite Hp.
Qed.

(** [needs_fetch] is false only for a key that is present. *)
Lemma needs_fetch_false_present c asset_id start_dt end_dt :
  needs_fetch c asset_id start_dt end_dt = Some false -> is_Some (c !! asset_id).
Proof.
  unfold needs_fetch. destruct (c !! asset_id); [eauto|done].
Qed.

(** The outcome of a request and the cache it leaves depend on the world
    through its cache only. *)
Lemma get_data_reads_cache up asset_id start_date end_date w1 w2 :
  cache w1 = cache w2 ->
  (get_data strptime up asset_id start_date end_date w1).2 =
    (get_data strptime up asset_id start_date end_date w2).2 /\
  cache (get_data strptime up asset_id start_date end_date w1).1 =
    cache (get_data strptime up asset_id start_date end_date w2).1.
Proof.
  intros Hc.
  destruct (validity strptime start_date end_date) as [(s & e & Es & Ee & Hle)|Hbad];
    [|destruct (get_data_invalid strptime up asset_id _ _ Hbad) as [d Hd];
      by rewrite !Hd].
  destruct (needs_fetch (cache w1) asset_id s e) as [[|]|] eqn:Hn1;
    pose proof Hn1 as Hn2; rewrite Hc in Hn2.
  - destruct (provider up asset_id start_date end_date) as [[|r df]|m] eqn:Hp.
    + destruct (get_data_adapter_fails strptime up _ _ _ _ _ w1 Es Ee Hle Hn1)
        as (-> & _ & _ & ->); [by rewrite Hp|].
      destruct (get_data_adapter_fails strptime up _ _ _ _ _ w2 Es Ee Hle Hn2)
        as (-> & _ & _ & ->); [by rewrite Hp|]. done.
    + destruct (get_data_fetched strptime up _ _ _ _ _ (r :: df) w1 Es Ee Hle Hn1 Hp)
        as (-> & _ & _ & ->); [done|].
      destruct (get_data_fetched strptime up _ _ _ _ _ (r :: df) w2 Es Ee Hle Hn2 Hp)
        as (-> & _ & _ & ->); [done|]. by rewrite Hc.
    + destruct (get_data_adapter_fails strptime up _ _ _ _ _ w1 Es Ee Hle Hn1)
        as (-> & _ & _ & ->); [by rewrite Hp|].
      destruct (get_data_adapter_fails strptime up _ _ _ _ _ w2 Es Ee Hle Hn2)
        as (-> & _ & _ & ->); [by rewrite Hp|]. done.
  - destruct (needs_fetch_false_present _ _ _ _ Hn1) as [df Hdf1].
    pose proof Hdf1 as Hdf2. rewrite Hc in Hdf2.
    destruct (get_data_cached strptime up _ _ _ _ _ df w1 Es Ee Hle Hn1 Hdf1)
      as (-> & _ & _ & ->).
    destruct (get_data_cached strptime up _ _ _ _ _ df w2 Es Ee Hle Hn2 Hdf2)
      as (-> & _ & _ & ->). done.
  - rewrite !(get_data_valid strptime up _ _ _ _ _ _ Es Ee Hle), Hn1, Hn2. done.
Qed.

End Requests.

(** ** A validated request, path by path *)

Lemma get_data_run strptime up asset_id start_date end_date start_dt end_dt w :
  strptime start_date = Some start_dt -> strptime end_date = Some end_dt ->
  start_dt <= end_dt ->
  get_data strptime up asset_id start_date end_date w =
    run_valid up asset_id start_date end_date start_dt end_dt w.
Proof.
  intros Hs He Hle. rewrite (get_data_valid strptime up _ _ _ _ _ _ Hs He Hle).
  unfold run_valid.
  destruct (needs_fetch (cache w) asset_id start_dt end_dt) as [[|]|]; [| |done].
  - unfold bind.
    destruct (provider up asset_id start_date end_date) as [[|r rest]|m] eqn:Hp.
    + rewrite fetch_and_store_fails by (by rewrite Hp). by rewrite Hp.
    + rewrite (fetch_and_store_gives up _ _ _ (r :: rest)) by done.
      erewrite retrieve_present; [done|]. simpl. apply lookup_insert_eq.
    + rewrite fetch_and_store_fails by (by rewrite Hp). by rewrite Hp.
  - change (cache w !! asset_id) with (cache (locked asset_id w) !! asset_id).
    destruct (cache (locked asset_id w) !! asset_id) as [df|] eqn:Hc.
    + by erewrite retrieve_present.
    + unfold retrieve, cache_get, bind. by rewrite Hc.
Qed.

(** The outcome of [retrieved]: the 404 answer, or a response for the key
    whose rows are those of the slice, which is not empty. *)
Lemma retrieved_cases asset_id start_dt end_dt df :
  (slice start_dt end_dt df = [] /\
   retrieved asset_id start_dt end_dt df =
     Raise (HTTPException 404 "No data found for the specified range.")) \/
  (slice start_dt end_dt df <> [] /\
   retrieved asset_id start_dt end_dt df =
     Return {| resp_asset_id := asset_id;
               resp_data := to_dict_split (slice start_dt end_dt df) |}).
Proof.
  unfold retrieved. destruct (slice start_dt end_dt df); [by left|by right].
Qed.

Lemma needs_fetch_None c asset_id start_dt end_dt :
  needs_fetch c asset_id start_dt end_dt = None -> c !! asset_id = Some [].
Proof.
  unfold needs_fetch. destruct (c !! asset_id) as [[|r df]|]; [done| |done].
  simpl. destruct (index_min df), (index_max df); done.
Qed.

(** The rows of a merge come from the two frames. *)
Lemma merge_frames_rows cached fetched r :
  r ∈ merge_frames cached fetched -> r ∈ cached \/ r ∈ fetched.
Proof.
  rewrite merge_frames_perm. intros Hr.
  apply elem_of_app. eapply sublist_subseteq; [apply drop_duplicates_sublist|done].
Qed.

(** For an entry that holds rows, [needs_fetch] compares the dates of the
    request with the least and the greatest date of the rows. *)
Lemma needs_fetch_dates c asset_id start_dt end_dt df :
  c !! asset_id = Some df -> df <> [] ->
  exists lo hi,
    min_date (row_date <$> df) = Some lo /\ max_date (row_date <$> df) = Some hi /\
    needs_fetch c asset_id start_dt end_dt = Some ((start_dt <? lo) || (hi <? end_dt)).
Proof.
  intros Hc Hdf. unfold needs_fetch. rewrite Hc.
  rewrite <- available_start_dates, <- available_end_dates.
  unfold available_start, available_end.
  destruct (index_min df) as [a|] eqn:Ea; [|by apply index_min_None in Ea].
  destruct (index_max df) as [b|] eqn:Eb; [|by apply index_max_None in Eb].
  by exists (to_date a), (to_date b).
Qed.

(** * Part IV: the statements of the specification *)

Lemma answering_strict df : StronglySorted date_lt df -> strict_answers (answering df).
Proof.
  intros Hdf k sd ed df'. unfold provider, answering. simpl.
  destruct (is_macro_metric k); by intros [= <-].
Qed.

Lemma aapl_second_strict : StronglySorted date_lt aapl_second.
Proof. repeat constructor. Qed.

Lemma aapl_first_strict : StronglySorted date_lt aapl_first.
Proof. repeat constructor. Qed.

(** ** C1 to C4: the merge *)

(** C1. The specification has the merge remove the rows of a duplicated
    date and keep the last written. Evaluated on a second answer that
    revises the bar of 2023-01-03, line 154 keeps both bars of that date:
    [drop_duplicates] compares the cells and not the index. The merge of
    the specification keeps the revised bar only. *)
Theorem merge_keeps_both_bars_of_a_date :
  cache aapl_world_1 !! "AAPL" = Some aapl_first /\
  cache aapl_world_2 !! "AAPL" =
    Some [bar 20230103 [12507; 12421]; bar 20230103 [12507; 12398];
          bar 20230104 [12636; 12525]] /\
  spec_merge aapl_first aapl_second =
    [bar 20230103 [12507; 12398]; bar 20230104 [12636; 12525]].
Proof. vm_compute. done. Qed.

(** C2. The specification has every cached frame strictly ascending by
    date at all times. The process reaches, with providers whose answers
    are all strictly ascending, a world whose entry for AAPL holds two rows
    of the same date. *)
Theorem reachable_entry_with_repeated_date :
  exists w df,
    rtc (step strptime_iso strict_answers) init w /\
    cache w !! "AAPL" = Some df /\
    ~ StronglySorted date_lt df.
Proof.
  exists aapl_world_2. eexists. split; [|split].
  - eapply rtc_l; [|apply rtc_once].
    + apply (step_request _ _ (answering aapl_first) "AAPL" "2023-01-03" "2023-01-04").
      apply answering_strict, aapl_first_strict.
    + apply (step_request _ _ (answering aapl_second) "AAPL" "2023-01-03" "2023-01-05").
      apply answering_strict, aapl_second_strict.
  - vm_compute. reflexivity.
  - intros H. apply StronglySorted_inv in H as [_ H].
    apply Forall_cons in H as [H _]. unfold date_lt, row_date in H. simpl in H. lia.
Qed.

(** C3. The specification has the end of the covered range never move back
    after a merge. Evaluated on a series whose last cached row has the cells
    of an earlier row: the merge drops that row and the covered range, which
    ended on 2023-01-06, ends on 2023-01-05. *)
Theorem merge_moves_the_end_back :
  cache rate_world_1 !! "M_RATE" = Some [obs 20230105 433; obs 20230106 433] /\
  cache rate_world_2 !! "M_RATE" = Some [obs 20230103 425; obs 20230105 433] /\
  available_end <$> cache rate_world_1 !! "M_RATE" = Some (Some 20230106) /\
  available_end <$> cache rate_world_2 !! "M_RATE" = Some (Some 20230105).
Proof. vm_compute. done. Qed.

(** C4. The specification has a second merge of the same dataset leave the
    content of a single merge, without duplicate dates. Evaluated on a key
    that is absent: the first merge stores the two observations, the second
    drops the one of 2023-01-06. Evaluated on a key that is present: both
    merges leave two bars of 2023-01-03. *)
Theorem second_merge_of_the_same_dataset :
  let once := (update_cache "M_RATE" rate_first init).1 in
  let twice := (update_cache "M_RATE" rate_first once).1 in
  let again := (update_cache "AAPL" aapl_second aapl_world_2).1 in
  cache once !! "M_RATE" = Some [obs 20230105 433; obs 20230106 433] /\
  cache twice !! "M_RATE" = Some [obs 20230105 433] /\
  cache again !! "AAPL" =
    Some [bar 20230103 [12507; 12421]; bar 20230103 [12507; 12398];
          bar 20230104 [12636; 12525]].
Proof. vm_compute. done. Qed.

(** ** C5 to C7: when and what the handler fetches *)

(** C5, as the specification states it, fails: with AAPL cached from
    2023-01-03 to 2023-01-13, the request for 2023-01-03..2023-01-31 calls
    the provider for the whole of its range, the cached days included. *)
Lemma whole_range_is_fetched_again :
  calls (get_data strptime_iso (answering aapl_month) "AAPL" "2023-01-03" "2023-01-31"
           half_world).1 =
    calls half_world ++ [mkCall Yahoo "AAPL" "2023-01-03" "2023-01-31"] /\
  ~ fetches_only_missing strptime_iso "AAPL" half_world
      (get_data strptime_iso (answering aapl_month) "AAPL" "2023-01-03" "2023-01-31"
         half_world).1.
Proof.
  split; [by vm_compute|].
  intros H.
  apply (H (mkCall Yahoo "AAPL" "2023-01-03" "2023-01-31")
           [mkCall Yahoo "AAPL" "2023-01-03" "2023-01-31"]
           aapl_half 20230103 20230113 20230103 20230131 20230110);
    try (by vm_compute); try lia.
  apply list_elem_of_singleton. done.
Qed.

(** C5, amended. A request calls a provider at most once, and the call
    carries the start and end dates of the request as they came: the whole
    requested range is asked for, whatever the cache holds. *)
Theorem fetch_asks_for_the_requested_range strptime up asset_id start_date end_date w :
  let w' := (get_data strptime up asset_id start_date end_date w).1 in
  calls w' = calls w \/
  calls w' = calls w ++ [mkCall (source_of asset_id) asset_id start_date end_date].
Proof.
  simpl.
  destruct (validity strptime start_date end_date) as [(s & e & Es & Ee & Hle)|Hbad];
    [|left; by destruct (get_data_invalid strptime up asset_id _ _ Hbad) as [d ->]].
  destruct (needs_fetch (cache w) asset_id s e) as [[|]|] eqn:Hn.
  - right. by eapply get_data_fetch_call.
  - left. destruct (needs_fetch_false_present _ _ _ _ Hn) as [df Hdf].
    by eapply get_data_cached.
  - left. by rewrite (get_data_valid strptime up _ _ _ _ _ _ Es Ee Hle), Hn.
Qed.

(** C6. In a world the process can be in, a request with a valid range
    calls a provider if and only if its key is absent from the cache, or its
    start date is before the first cached date, or its end date is after the
    last cached date. Otherwise no call is made, the cache is left as it is
    and the answer is the slice of the cached entry. *)
Theorem fetch_iff_outside_coverage strptime up asset_id start_date end_date
    start_dt end_dt w :
  reachable strptime w ->
  strptime start_date = Some start_dt -> strptime end_date = Some end_dt ->
  start_dt <= end_dt ->
  let w' := (get_data strptime up asset_id start_date end_date w).1 in
  (calls w' <> calls w <-> outside_coverage (cache w) asset_id start_dt end_dt) /\
  (outside_coverage (cache w) asset_id start_dt end_dt ->
     calls w' = calls w ++ [mkCall (source_of asset_id) asset_id start_date end_date]) /\
  (~ outside_coverage (cache w) asset_id start_dt end_dt ->
     exists df, cache w !! asset_id = Some df /\
       calls w' = calls w /\ cache w' = cache w /\
       (get_data strptime up asset_id start_date end_date w).2 =
         retrieved asset_id start_dt end_dt df).
Proof.
  intros Hr Hs He Hle. simpl.
  apply reachable_nonempty in Hr.
  assert (Hgrow : forall (l : list Call) c, l ++ [c] <> l).
  { intros l c E. apply (f_equal length) in E. rewrite length_app in E. simpl in E. lia. }
  destruct (needs_fetch (cache w) asset_id start_dt end_dt) as [[|]|] eqn:Hn.
  - (* a fetch is needed *)
    pose proof (get_data_fetch_call strptime up _ _ _ _ _ w Hs He Hle Hn) as Hcalls.
    assert (Hout : outside_coverage (cache w) asset_id start_dt end_dt).
    { unfold needs_fetch in Hn. unfold outside_coverage.
      destruct (cache w !! asset_id) as [df|] eqn:Hdf; [|by left].
      right.
      destruct (index_min df) as [lo|] eqn:Hlo; [|done].
      destruct (index_max df) as [hi|] eqn:Hhi; [|done].
      exists df, (to_date lo), (to_date hi).
      unfold available_start, available_end. rewrite Hlo, Hhi.
      repeat split; try done.
      injection Hn as Hn. lia. }
    split; [|split]; [|done|done].
    split; [done|]. intros _. rewrite Hcalls. apply Hgrow.
  - (* the cache covers the request *)
    destruct (needs_fetch_false_present _ _ _ _ Hn) as [df Hdf].
    destruct (get_data_cached strptime up _ _ _ _ _ df w Hs He Hle Hn Hdf)
      as (Hcache & Hcalls & _ & Hout).
    assert (Hin : ~ outside_coverage (cache w) asset_id start_dt end_dt).
    { intros [Habs|(df' & lo & hi & Hdf' & Hlo & Hhi & Hcmp)]; [congruence|].
      rewrite Hdf in Hdf'. injection Hdf' as <-.
      unfold needs_fetch in Hn. rewrite Hdf in Hn.
      unfold available_start, available_end in Hlo, Hhi.
      destruct (index_min df) as [lo'|], (index_max df) as [hi'|]; try done.
      simpl in Hlo, Hhi. injection Hlo as <-. injection Hhi as <-.
      injection Hn as Hn. lia. }
    split; [|split]; [|done|].
    + split; [by rewrite Hcalls|done].
    + intros _. by exists df.
  - (* an empty entry: no world the process reaches has one *)
    exfalso. unfold needs_fetch in Hn.
    destruct (cache w !! asset_id) as [df|] eqn:Hdf; [|done].
    apply Hr in Hdf. destruct df as [|r df]; [done|]. simpl in Hn.
    destruct (index_min df), (index_max df); done.
Qed.

Lemma half_world_reachable : reachable strptime_iso half_world.
Proof.
  apply rtc_once.
  by apply (step_request _ _ (answering aapl_half) "AAPL" "2023-01-03" "2023-01-14").
Qed.

(** C6 at a request inside the covered range of [half_world]. *)
Lemma fetch_iff_outside_coverage_witness :
  let w' := (get_data strptime_iso (answering aapl_month) "AAPL"
               "2023-01-04" "2023-01-13" half_world).1 in
  (calls w' <> calls half_world <->
     outside_coverage (cache half_world) "AAPL" 20230104 20230113) /\
  (outside_coverage (cache half_world) "AAPL" 20230104 20230113 ->
     calls w' = calls half_world ++ [mkCall (source_of "AAPL") "AAPL" "2023-01-04" "2023-01-13"]) /\
  (~ outside_coverage (cache half_world) "AAPL" 20230104 20230113 ->
     exists df, cache half_world !! "AAPL" = Some df /\
       calls w' = calls half_world /\ cache w' = cache half_world /\
       (get_data strptime_iso (answering aapl_month) "AAPL"
          "2023-01-04" "2023-01-13" half_world).2 =
         retrieved "AAPL" 20230104 20230113 df).
Proof.
  apply (fetch_iff_outside_coverage strptime_iso (answering aapl_month) "AAPL"
           "2023-01-04" "2023-01-13" 20230104 20230113 half_world).
  - exact half_world_reachable.
  - reflexivity.
  - reflexivity.
  - lia.
Defined.

(** C7, as the specification states it, fails: when the provider call of a
    first request for AAPL fails, the cache is left as it was, but what
    [get_data] raises is the [ValueError] of the adapter, which no clause of
    the handler turns into the 404 answer. The same holds when the provider
    returns no rows. *)
Lemma adapter_failure_is_not_404 :
  let r := get_data strptime_iso (failing "timed out") "AAPL" "2023-01-03" "2023-01-10" init in
  let r0 := get_data strptime_iso (answering []) "AAPL" "2023-01-03" "2023-01-10" init in
  ~ (cache r.1 = cache init /\ exists detail, r.2 = Raise (HTTPException 404 detail)) /\
  ~ (cache r0.1 = cache init /\ exists detail, r0.2 = Raise (HTTPException 404 detail)) /\
  r.2 = Raise (ValueError "Error fetching data from Yahoo Finance for AAPL: timed out") /\
  r0.2 = Raise (ValueError
    "Error fetching data from Yahoo Finance for AAPL: No data found for ticker AAPL").
Proof.
  simpl. split; [|split; [|split]].
  - intros [_ [detail H]]. vm_compute in H. discriminate H.
  - intros [_ [detail H]]. vm_compute in H. discriminate H.
  - by vm_compute.
  - by vm_compute.
Qed.

(** C7, amended. When the adapter of a request fails (the provider raises,
    or returns no rows), the cache is exactly as it was before the request,
    absent keys absent and present entries unchanged, no backup task is
    created, and [get_data] raises the [ValueError] of the adapter, with the
    text the adapter built. *)
Theorem adapter_failure_leaves_cache strptime up asset_id start_date end_date
    start_dt end_dt w :
  strptime start_date = Some start_dt -> strptime end_date = Some end_dt ->
  start_dt <= end_dt ->
  needs_fetch (cache w) asset_id start_dt end_dt = Some true ->
  adapter_fails (provider up asset_id start_date end_date) ->
  let r := get_data strptime up asset_id start_date end_date w in
  cache r.1 = cache w /\
  (forall k, cache r.1 !! k = cache w !! k) /\
  tasks r.1 = tasks w /\
  r.2 = Raise (ValueError
          (adapter_error asset_id (provider up asset_id start_date end_date))) /\
  (forall detail, r.2 <> Raise (HTTPException 404 detail)).
Proof.
  intros Hs He Hle Hn Hp. simpl.
  destruct (get_data_adapter_fails strptime up _ _ _ _ _ w Hs He Hle Hn Hp)
    as (Hc & _ & Ht & Ho).
  rewrite Hc, Ht, Ho. repeat split; done.
Qed.

(** C7 amended, at a request that misses the end of the covered range of
    [half_world] while the provider is down. *)
Lemma adapter_failure_leaves_cache_witness :
  let r := get_data strptime_iso (failing "timed out") "AAPL" "2023-01-03" "2023-01-31"
             half_world in
  cache r.1 = cache half_world /\
  (forall k, cache r.1 !! k = cache half_world !! k) /\
  tasks r.1 = tasks half_world /\
  r.2 = Raise (ValueError
          (adapter_error "AAPL"
             (provider (failing "timed out") "AAPL" "2023-01-03" "2023-01-31"))) /\
  (forall detail, r.2 <> Raise (HTTPException 404 detail)).
Proof.
  apply (adapter_failure_leaves_cache strptime_iso (failing "timed out") "AAPL"
           "2023-01-03" "2023-01-31" 20230103 20230131 half_world).
  - reflexivity.
  - reflexivity.
  - lia.
  - vm_compute. reflexivity.
  - exact I.
Defined.

(** ** C8: the slice *)

(** C8, as the specification states it, fails: a first request whose
    provider answers with the bar of 2023-01-13 before the bar of
    2023-01-03 stores the frame as it came (line 156), and the response of
    that request, like the slice of the entry afterwards, holds the two
    bars in that descending order. *)
Lemma descending_entry_is_served_descending :
  let r := get_data strptime_iso (answering aapl_descending) "AAPL"
             "2023-01-03" "2023-01-13" init in
  let served :=
    Return {| resp_asset_id := "AAPL";
              resp_data :=
                {| split_index := [index (bar 20230113 [13476]); index (bar 20230103 [12507])];
                   split_data := [[13476]; [12507]] |} |} in
  reachable strptime_iso r.1 /\
  cache r.1 !! "AAPL" = Some aapl_descending /\
  r.2 = served /\
  (retrieve "AAPL" 20230103 20230113 r.1).2 = served /\
  ~ StronglySorted (fun a b => to_date a <= to_date b)
      [index (bar 20230113 [13476]); index (bar 20230103 [12507])].
Proof.
  simpl. split; [|split; [|split; [|split]]].
  - apply rtc_once.
    by apply (step_request _ _ (answering aapl_descending) "AAPL" "2023-01-03" "2023-01-13").
  - by vm_compute.
  - by vm_compute.
  - by vm_compute.
  - intros H. apply StronglySorted_inv in H as [_ H].
    apply Forall_cons in H as [H _]. unfold to_date in H. simpl in H. lia.
Qed.

(** C8, amended. For a key that is present, [retrieve] answers with
    exactly the rows of the cached entry whose date is between the start
    and the end of the request, bounds included, and only those, in the
    order in which the entry holds them. That order is ascending by date
    whenever the entry is in ascending order of its index, as every entry
    that a merge has produced is; a first store keeps the order of the
    provider. When no row is in the range, [retrieve] raises the 404
    answer. The cache is not changed. *)
Theorem slice_keeps_the_order_of_the_entry asset_id start_dt end_dt cached_df w :
  cache w !! asset_id = Some cached_df ->
  let result_df := filter (in_range start_dt end_dt) cached_df in
  let r := retrieve asset_id start_dt end_dt w in
  (forall row, row ∈ result_df <->
     row ∈ cached_df /\ start_dt <= ts_date (index row) /\ ts_date (index row) <= end_dt) /\
  sublist result_df cached_df /\
  (StronglySorted row_le cached_df -> StronglySorted date_le result_df) /\
  (forall older fetched,
     cached_df = merge_frames older fetched -> StronglySorted date_le result_df) /\
  (result_df = [] ->
     r.2 = Raise (HTTPException 404 "No data found for the specified range.")) /\
  (result_df <> [] ->
     r.2 = Return {| resp_asset_id := asset_id;
                     resp_data := {| split_index := map index result_df;
                                     split_data := map cells result_df |} |}) /\
  cache r.1 = cache w.
Proof.
  intros Hc. simpl. rewrite (retrieve_present _ _ _ _ _ Hc). unfold retrieved, slice. simpl.
  assert (Hsorted : StronglySorted row_le cached_df ->
            StronglySorted date_le (filter (in_range start_dt end_dt) cached_df)).
  { intros Hs. apply sorted_row_date.
    eapply sorted_sublist; [apply sublist_filter|done]. }
  split; [|split; [|split; [|split; [|split; [|split]]]]].
  - intros row. rewrite list_elem_of_filter. unfold in_range, row_date, to_date. tauto.
  - apply sublist_filter.
  - exact Hsorted.
  - intros older fetched ->. apply Hsorted, merge_frames_sorted.
  - by intros ->.
  - by destruct (filter (in_range start_dt end_dt) cached_df).
  - done.
Qed.

(** C8 amended, on the entry that the descending answer left: the two bars
    are served in the order of the entry. *)
Lemma slice_keeps_the_order_of_the_entry_witness :
  let result_df := filter (in_range 20230103 20230113) aapl_descending in
  let r := retrieve "AAPL" 20230103 20230113 descending_world in
  (forall row, row ∈ result_df <->
     row ∈ aapl_descending /\
     20230103 <= ts_date (index row) /\ ts_date (index row) <= 20230113) /\
  sublist result_df aapl_descending /\
  (StronglySorted row_le aapl_descending -> StronglySorted date_le result_df) /\
  (forall older fetched,
     aapl_descending = merge_frames older fetched -> StronglySorted date_le result_df) /\
  (result_df = [] ->
     r.2 = Raise (HTTPException 404 "No data found for the specified range.")) /\
  (result_df <> [] ->
     r.2 = Return {| resp_asset_id := "AAPL";
                     resp_data := {| split_index := map index result_df;
                                     split_data := map cells result_df |} |}) /\
  cache r.1 = cache descending_world.
Proof.
  apply (slice_keeps_the_order_of_the_entry "AAPL" 20230103 20230113 aapl_descending
           descending_world).
  vm_compute. reflexivity.
Defined.

(** ** C9: the backup task *)

(** C9. Whatever the CSV writer, gzip and the blob client do, raising
    included, the backup task returns normally after printing one line: no
    exception leaves it. It does not change the cache, so a request answered
    after it gets the outcome, and leaves the cache, that it would have
    without the backup. The request that created the task has returned
    before the task runs. *)
Theorem backup_failure_is_contained strptime st up asset_id data w
    asset_id' start_date end_date :
  let b := backup_to_azure st asset_id data w in
  b.2 = Return tt /\
  cache b.1 = cache w /\
  (exists text, stdout b.1 = stdout w ++ [PrintText text]) /\
  (get_data strptime up asset_id' start_date end_date b.1).2 =
    (get_data strptime up asset_id' start_date end_date w).2 /\
  cache (get_data strptime up asset_id' start_date end_date b.1).1 =
    cache (get_data strptime up asset_id' start_date end_date w).1.
Proof.
  simpl.
  destruct (backup_to_azure_contained st asset_id data w) as (Hret & Hcache & _).
  split; [exact Hret|]. split; [exact Hcache|]. split.
  - unfold backup_to_azure. run_M.
    destruct (to_csv st data) as [csv|m1]; run_M; [|eauto].
    destruct (gzip_write st csv) as [gz|m2]; run_M; [|eauto].
    destruct (get_blob_client st _) as [[]|m3]; run_M; [|eauto].
    destruct (upload_blob st _ gz) as [[]|m4]; run_M; eauto.
  - by apply get_data_reads_cache.
Qed.

(** ** C10: the comparisons are made on calendar dates *)




(** * Part V: further properties of the code *)

(** ** Validation (lines 121-128) *)

(** X1. A request is answered 400 exactly when one of its dates does not
    parse or its start date is after its end date; equal dates pass. The
    detail tells which of the two it was, and such a request leaves the
    whole state as it was: no lock is created and no provider is called. *)
Theorem rejected_requests_change_nothing strptime up asset_id start_date end_date w :
  let r := get_data strptime up asset_id start_date end_date w in
  ((exists detail, r.2 = Raise (HTTPException 400 detail)) <->
     ~ valid_request strptime start_date end_date) /\
  (~ valid_request strptime start_date end_date -> r.1 = w) /\
  (strptime start_date = None \/ strptime end_date = None ->
     r.2 = Raise (HTTPException 400 "Invalid date format. Use YYYY-MM-DD.")) /\
  (forall start_dt end_dt,
     strptime start_date = Some start_dt -> strptime end_date = Some end_dt ->
     end_dt < start_dt ->
     r.2 = Raise (HTTPException 400 "start_date must be before end_date")).
Proof.
  simpl. split; [|split; [|split]].
  - split.
    + intros [detail Hd] (s & e & Hs & He & Hle).
      rewrite (get_data_run strptime up _ _ _ _ _ w Hs He Hle) in Hd.
      unfold run_valid in Hd.
      destruct (needs_fetch (cache w) asset_id s e) as [[|]|]; [| |done].
      * destruct (provider up asset_id start_date end_date) as [[|r rest]|m]; try done.
        simpl in Hd. by destruct (retrieved_cases asset_id s e
          (stored_entry (cache w) asset_id (r :: rest))) as [[_ E]|[_ E]];
          rewrite E in Hd.
      * destruct (cache w !! asset_id) as [df|]; [|done]. simpl in Hd.
        by destruct (retrieved_cases asset_id s e df) as [[_ E]|[_ E]]; rewrite E in Hd.
    + intros Hbad.
      destruct (validity strptime start_date end_date) as [Hv|Hv]; [done|].
      destruct (get_data_invalid strptime up asset_id _ _ Hv) as [d Hd].
      exists d. by rewrite Hd.
  - intros Hbad.
    destruct (validity strptime start_date end_date) as [Hv|Hv]; [done|].
    destruct (get_data_invalid strptime up asset_id _ _ Hv) as [d Hd]. by rewrite Hd.
  - unfold get_data, validate, parse_date. run_M. intros [H|H].
    + by rewrite H.
    + rewrite H. by destruct (strptime start_date).
  - intros s e Hs He Hlt. unfold get_data, validate, parse_date. run_M.
    rewrite Hs, He. simpl. destruct (e <? s) eqn:E; [done|lia].
Qed.

(** ** The outcomes of the handler *)

Lemma stored_entry_rows c asset_id df r :
  r ∈ stored_entry c asset_id df ->
  r ∈ df \/ exists cached, c !! asset_id = Some cached /\ r ∈ cached.
Proof.
  unfold stored_entry. destruct (c !! asset_id) as [cached|]; [|by left].
  intros Hr. apply merge_frames_rows in Hr as [Hr|Hr]; [right; eauto|by left].
Qed.

Lemma step_zoned strptime tz_of w w' :
  cache_zoned tz_of w -> step strptime (zoned_answers tz_of) w w' -> cache_zoned tz_of w'.
Proof.
  intros Hw Hstep. destruct Hstep as [up k sd ed w Hup|st k data pre post w _].
  - destruct (get_data_cache strptime up k sd ed w) as [E|(df & Hne & Hp & E)];
      simpl in E; intros k' df'; rewrite E; [apply Hw|].
    destruct (decide (k = k')) as [<-|Hk].
    + rewrite lookup_insert_eq. intros [= <-]. rewrite Forall_forall. intros r Hr.
      apply stored_entry_rows in Hr as [Hr|(cached & Hc & Hr)].
      * specialize (Hup _ _ _ _ Hp). rewrite Forall_forall in Hup. by apply Hup.
      * specialize (Hw _ _ Hc). rewrite Forall_forall in Hw. by apply Hw.
    + rewrite lookup_insert_ne by done. apply Hw.
  - intros k' df'.
    destruct (backup_to_azure_contained st k data (set_tasks (fun _ => pre ++ post) w))
      as (_ & -> & _).
    apply Hw.
Qed.

Lemma zoned_run strptime tz_of w :
  rtc (step strptime (zoned_answers tz_of)) init w ->
  cache_zoned tz_of w /\ cache_nonempty w.
Proof.
  apply (invariant_reachable strptime (zoned_answers tz_of)
           (fun w => cache_zoned tz_of w /\ cache_nonempty w)).
  - split; intros k df H; cbn in H; by rewrite lookup_empty in H.
  - intros w0 w1 [Hz Hn] Hstep. split.
    + by eapply step_zoned.
    + by eapply step_nonempty.
Qed.

(** X2. While the providers answer every key in one time zone, so that
    the index of every entry stays in the zone of its key, a request has one
    of four outcomes in every world the process reaches: the 400 answer, the
    [ValueError] of the adapter, the 404 answer, or a response. No
    [KeyError] and no comparison with [NaT] ever escapes. A response carries
    the key of the request, at least one row, as many index entries as rows
    of cells, and only rows dated within the requested range. The entries
    are in the zone of their key after the request as before. *)
Theorem outcomes_of_a_request strptime tz_of up asset_id start_date end_date w :
  rtc (step strptime (zoned_answers tz_of)) init w ->
  zoned_answers tz_of up ->
  let r := get_data strptime up asset_id start_date end_date w in
  ((exists detail, r.2 = Raise (HTTPException 400 detail)) \/
   r.2 = Raise (ValueError
           (adapter_error asset_id (provider up asset_id start_date end_date))) \/
   r.2 = Raise (HTTPException 404 "No data found for the specified range.") \/
   exists resp start_dt end_dt,
     r.2 = Return resp /\
     strptime start_date = Some start_dt /\ strptime end_date = Some end_dt /\
     resp_asset_id resp = asset_id /\
     split_index (resp_data resp) <> [] /\
     length (split_index (resp_data resp)) = length (split_data (resp_data resp)) /\
     Forall (fun t => start_dt <= to_date t <= end_dt) (split_index (resp_data resp)) /\
     Forall (fun t => ts_tz t = tz_of asset_id) (split_index (resp_data resp))) /\
  cache_zoned tz_of r.1.
Proof.
  intros Hrun Hup. simpl.
  assert (Hafter : cache_zoned tz_of (get_data strptime up asset_id start_date end_date w).1).
  { apply zoned_run in Hrun as [Hz _]. eapply step_zoned; [exact Hz|].
    by apply step_request. }
  split; [|exact Hafter].
  apply zoned_run in Hrun as [Hz Hr].
  assert (Hresp : forall s e df,
    strptime start_date = Some s -> strptime end_date = Some e ->
    Forall (fun row => ts_tz (index row) = tz_of asset_id) df ->
    retrieved asset_id s e df =
      Raise (HTTPException 404 "No data found for the specified range.") \/
    exists resp start_dt end_dt,
      retrieved asset_id s e df = Return resp /\
      strptime start_date = Some start_dt /\ strptime end_date = Some end_dt /\
      resp_asset_id resp = asset_id /\
      split_index (resp_data resp) <> [] /\
      length (split_index (resp_data resp)) = length (split_data (resp_data resp)) /\
      Forall (fun t => start_dt <= to_date t <= end_dt) (split_index (resp_data resp)) /\
      Forall (fun t => ts_tz t = tz_of asset_id) (split_index (resp_data resp))).
  { intros s e df Hs He Hzone.
    destruct (retrieved_cases asset_id s e df) as [[_ ->]|[Hne ->]]; [by left|].
    right. eexists _, s, e. split; [done|]. simpl. repeat split; try done.
    - by destruct (slice s e df).
    - by rewrite !length_map.
    - rewrite Forall_forall. intros t Ht.
      apply list_elem_of_fmap in Ht as (row & -> & Hrow).
      unfold slice in Hrow. apply list_elem_of_filter in Hrow as [Hin _].
      exact Hin.
    - rewrite Forall_forall. intros t Ht.
      apply list_elem_of_fmap in Ht as (row & -> & Hrow).
      unfold slice in Hrow. apply list_elem_of_filter in Hrow as [_ Hin].
      rewrite Forall_forall in Hzone. by apply Hzone. }
  destruct (validity strptime start_date end_date) as [(s & e & Hs & He & Hle)|Hv].
  - pose proof Hafter as Hafter'.
    rewrite (get_data_run strptime up _ _ _ _ _ w Hs He Hle) in Hafter' |- *.
    unfold run_valid in Hafter' |- *.
    destruct (needs_fetch (cache w) asset_id s e) as [[|]|] eqn:Hn.
    + destruct (provider up asset_id start_date end_date) as [[|r rest]|m];
        [by right; left| |by right; left].
      simpl. right. right. apply Hresp; [done|done|].
      apply (Hafter' asset_id). simpl. apply lookup_insert_eq.
    + destruct (needs_fetch_false_present _ _ _ _ Hn) as [df Hdf]. rewrite Hdf.
      simpl. right. right. apply Hresp; [done|done|]. by apply (Hz asset_id).
    + apply needs_fetch_None in Hn. by apply Hr in Hn.
  - left. destruct (get_data_invalid strptime up asset_id _ _ Hv) as [d Hd].
    exists d. by rewrite Hd.
Qed.

(** ** What a request does to the cache, the locks and the tasks *)

Lemma locked_asset_locks asset_id w :
  asset_locks (locked asset_id w) = {[asset_id]} ∪ asset_locks w.
Proof.
  unfold locked. simpl. case_bool_decide as Hin; [|done].
  apply set_eq. intros k. rewrite elem_of_union, elem_of_singleton.
  split; [by right|]. by intros [->|?].
Qed.

Lemma needs_fetch_true_stored c asset_id start_dt end_dt df :
  needs_fetch c asset_id start_dt end_dt = Some true -> df <> [] ->
  stored_entry c asset_id df <> [].
Proof.
  intros Hn Hdf. unfold stored_entry. unfold needs_fetch in Hn.
  destruct (c !! asset_id) as [cached|]; [|done].
  apply merge_frames_nonempty. by destruct cached.
Qed.

(** A request is rejected and changes nothing, or it creates the lock of
    its key and leaves the cache and the tasks alone, or it creates the
    lock, stores rows under its key and creates the task of these rows. *)
Lemma get_data_effect strptime up asset_id start_date end_date w :
  let w' := (get_data strptime up asset_id start_date end_date w).1 in
  (~ valid_request strptime start_date end_date /\ w' = w) \/
  (valid_request strptime start_date end_date /\
   asset_locks w' = {[asset_id]} ∪ asset_locks w /\
   ((cache w' = cache w /\ tasks w' = tasks w) \/
    exists df, df <> [] /\
      cache w' = <[asset_id := df]> (cache w) /\
      tasks w' = tasks w ++ [(asset_id, df)])).
Proof.
  simpl.
  destruct (validity strptime start_date end_date) as [(s & e & Hs & He & Hle)|Hv].
  - right. split; [by exists s, e|].
    rewrite (get_data_run strptime up _ _ _ _ _ w Hs He Hle). unfold run_valid.
    destruct (needs_fetch (cache w) asset_id s e) as [[|]|] eqn:Hn.
    + destruct (provider up asset_id start_date end_date) as [[|r rest]|m]; simpl;
        (split; [apply locked_asset_locks|]); [by left| |by left].
      right. eexists. split; [|done].
      by eapply needs_fetch_true_stored.
    + destruct (cache w !! asset_id); simpl;
        (split; [apply locked_asset_locks|]); by left.
    + simpl. split; [apply locked_asset_locks|]. by left.
  - left. split.
    + intros (s & e & Hs & He & Hle). specialize (Hv s e Hs He). lia.
    + destruct (get_data_invalid strptime up asset_id _ _ Hv) as [d Hd]. by rewrite Hd.
Qed.

(** X3. Every request that passes validation leaves its key with a lock,
    whether it is served from the cache, fetched, or fails in the adapter,
    and creates no other lock. *)
Theorem validated_requests_create_the_lock strptime up asset_id start_date end_date w :
  valid_request strptime start_date end_date ->
  let w' := (get_data strptime up asset_id start_date end_date w).1 in
  asset_id ∈ asset_locks w' /\
  asset_locks w' = {[asset_id]} ∪ asset_locks w.
Proof.
  intros Hv. simpl.
  destruct (get_data_effect strptime up asset_id start_date end_date w)
    as [[Hbad _]|(_ & Hl & _)]; [done|].
  simpl in Hl. rewrite Hl. split; [|done].
  apply elem_of_union_l. by apply elem_of_singleton.
Qed.

(** X4. The cache changes only together with a backup: a request either
    leaves the cache and the tasks as they were, or stores a frame that
    holds rows under its key and creates exactly one task, for that key
    and that frame. *)
Theorem every_store_creates_its_backup strptime up asset_id start_date end_date w :
  let w' := (get_data strptime up asset_id start_date end_date w).1 in
  (cache w' = cache w /\ tasks w' = tasks w) \/
  exists df, df <> [] /\
    cache w' !! asset_id = Some df /\
    cache w' = <[asset_id := df]> (cache w) /\
    tasks w' = tasks w ++ [(asset_id, df)].
Proof.
  simpl.
  destruct (get_data_effect strptime up asset_id start_date end_date w)
    as [[_ ->]|(_ & _ & [H|(df & Hdf & Hc & Ht)])]; [by left|by left|].
  right. exists df. simpl in Hc. rewrite Hc. repeat split; try done.
  apply lookup_insert_eq.
Qed.

(** X5. A request touches the entry of its own key only, and removes no
    entry: the entries of the other keys are as they were, and a key that
    was cached is still cached. *)
Theorem other_keys_are_left_alone strptime up asset_id start_date end_date w :
  let w' := (get_data strptime up asset_id start_date end_date w).1 in
  (forall k, k <> asset_id -> cache w' !! k = cache w !! k) /\
  (forall k, is_Some (cache w !! k) -> is_Some (cache w' !! k)).
Proof.
  simpl.
  destruct (get_data_effect strptime up asset_id start_date end_date w)
    as [[_ ->]|(_ & _ & [[-> _]|(df & _ & Hc & _)])]; [done|done|].
  simpl in Hc. rewrite Hc. split.
  - intros k Hk. by rewrite lookup_insert_ne.
  - intros k Hk. destruct (decide (asset_id = k)) as [->|Hne].
    + rewrite lookup_insert_eq. eauto.
    + by rewrite lookup_insert_ne.
Qed.

(** ** The process: what no step undoes *)

Lemma step_effect strptime good w w' :
  step strptime good w w' ->
  asset_locks w ⊆ asset_locks w' /\
  (forall k, is_Some (cache w !! k) -> is_Some (cache w' !! k)) /\
  (cached_keys_locked w -> cached_keys_locked w') /\
  (tasks_sound w -> tasks_sound w').
Proof.
  intros Hstep. unfold cached_keys_locked, tasks_sound.
  destruct Hstep as [up k sd ed w _|st k data pre post w Ht].
  - destruct (get_data_effect strptime up k sd ed w)
      as [[_ ->]|(_ & Hl & Hc)]; [done|].
    simpl in Hl, Hc. rewrite Hl.
    split; [apply union_subseteq_r|].
    destruct Hc as [[Hc Htk]|(df & Hdf & Hc & Htk)]; rewrite Hc, Htk.
    + split; [done|]. split.
      * intros Hk k' Hk'. by apply elem_of_union_r, Hk.
      * intros Hs k' d Hin. destruct (Hs k' d Hin) as (H1 & H2 & H3).
        repeat split; [done|done|by apply elem_of_union_r].
    + assert (Hkeep : forall k', is_Some (cache w !! k') ->
                is_Some (<[k := df]> (cache w) !! k')).
      { intros k' Hk'. destruct (decide (k = k')) as [->|Hne].
        - rewrite lookup_insert_eq. eauto.
        - by rewrite lookup_insert_ne. }
      split; [done|]. split.
      * intros Hk k' Hk'. destruct (decide (k = k')) as [->|Hne].
        -- by apply elem_of_union_l, elem_of_singleton.
        -- rewrite lookup_insert_ne in Hk' by done. by apply elem_of_union_r, Hk.
      * intros Hs k' d Hin. apply elem_of_app in Hin as [Hin|Hin].
        -- destruct (Hs k' d Hin) as (H1 & H2 & H3).
           repeat split; [done|by apply Hkeep|by apply elem_of_union_r].
        -- apply list_elem_of_singleton in Hin. injection Hin as -> ->.
           repeat split; [done| |by apply elem_of_union_l, elem_of_singleton].
           rewrite lookup_insert_eq. eauto.
  - destruct (backup_to_azure_contained st k data (set_tasks (fun _ => pre ++ post) w))
      as (_ & Hc & Hl & Htk & _).
    rewrite Hl, Hc, Htk. simpl. split; [done|]. split; [done|]. split; [done|].
    intros Hs k' d Hin.
    apply Hs. rewrite Ht. apply elem_of_app in Hin as [Hin|Hin].
    + apply elem_of_app. by left.
    + apply elem_of_app. right. apply elem_of_cons. by right.
Qed.

(** X6. Nothing is ever removed: along any run of requests and backup
    tasks, whatever the providers and the storage do, the keys that have a
    lock keep it and the keys that are cached stay cached. *)
Theorem locks_and_entries_stay strptime good w w' :
  rtc (step strptime good) w w' ->
  asset_locks w ⊆ asset_locks w' /\
  (forall k, is_Some (cache w !! k) -> is_Some (cache w' !! k)).
Proof.
  induction 1 as [w|w w1 w2 Hstep _ [IHl IHc]]; [done|].
  destruct (step_effect _ _ _ _ Hstep) as (Hl & Hc & _).
  split; [by etrans|]. intros k Hk. by apply IHc, Hc.
Qed.

(** X7. In every world the process can be in, every entry of the cache
    holds at least one row, every cached key has its lock, and every backup
    task that has not run yet holds at least one row, for a key that is
    cached and has its lock. *)
Theorem cached_keys_have_locks strptime w :
  reachable strptime w -> cache_nonempty w /\ cached_keys_locked w /\ tasks_sound w.
Proof.
  intros Hr. split; [by eapply reachable_nonempty|]. revert w Hr.
  apply (invariant_reachable strptime (fun _ => True)
           (fun w => cached_keys_locked w /\ tasks_sound w)).
  - split.
    + intros k [df Hk]. cbn in Hk. by rewrite lookup_empty in Hk.
    + intros k d Hin. cbn in Hin. by apply elem_of_nil in Hin.
  - intros w0 w1 [Hk Ht] Hstep.
    destruct (step_effect _ _ _ _ Hstep) as (_ & _ & H1 & H2). split; eauto.
Qed.

(** ** Routing (lines 38-43 and 146-150) *)

Lemma is_macro_metric_prefix asset_id :
  is_macro_metric asset_id = true <-> exists rest, asset_id = "M_" +:+ rest.
Proof.
  unfold is_macro_metric. split.
  - destruct asset_id as [|a [|b rest]]; cbn [String.prefix]; try done.
    + by destruct (Ascii.ascii_dec "M" a).
    + destruct (Ascii.ascii_dec "M" a) as [<-|]; [|done].
      destruct (Ascii.ascii_dec "_" b) as [<-|]; [|done].
      intros _. by exists rest.
  - intros [rest ->]. cbn [String.prefix String.append].
    destruct (Ascii.ascii_dec "M" "M"); [|done].
    destruct (Ascii.ascii_dec "_" "_"); [|done].
    by destruct rest.
Qed.

(** X8. A request calls at most one provider, once, for its own key: FRED
    when the key starts with the two characters [M_], in upper case, Yahoo
    Finance for every other key. *)
Theorem keys_are_routed_by_prefix strptime up asset_id start_date end_date w :
  let w' := (get_data strptime up asset_id start_date end_date w).1 in
  exists new,
    calls w' = calls w ++ new /\ (length new <= 1)%nat /\
    forall c, c ∈ new ->
      call_asset c = asset_id /\
      (call_source c = Fred <-> exists rest, asset_id = "M_" +:+ rest) /\
      (call_source c = Yahoo <-> ~ exists rest, asset_id = "M_" +:+ rest).
Proof.
  simpl.
  assert (Hroute :
    (source_of asset_id = Fred <-> exists rest, asset_id = "M_" +:+ rest) /\
    (source_of asset_id = Yahoo <-> ~ exists rest, asset_id = "M_" +:+ rest)).
  { rewrite <- is_macro_metric_prefix. unfold source_of.
    destruct (is_macro_metric asset_id); split; split; done. }
  assert (Hone : forall w0, calls w0 = calls w ->
    exists new,
      calls (log_call asset_id start_date end_date w0) = calls w ++ new /\
      (length new <= 1)%nat /\
      forall c, c ∈ new ->
        call_asset c = asset_id /\
        (call_source c = Fred <-> exists rest, asset_id = "M_" +:+ rest) /\
        (call_source c = Yahoo <-> ~ exists rest, asset_id = "M_" +:+ rest)).
  { intros w0 Hw0. eexists. simpl. rewrite Hw0. split; [done|]. split; [simpl; lia|].
    intros c Hc. apply list_elem_of_singleton in Hc as ->. by simpl. }
  assert (Hnone : forall w0 : World, calls w0 = calls w ->
    exists new,
      calls w0 = calls w ++ new /\ (length new <= 1)%nat /\
      forall c, c ∈ new ->
        call_asset c = asset_id /\
        (call_source c = Fred <-> exists rest, asset_id = "M_" +:+ rest) /\
        (call_source c = Yahoo <-> ~ exists rest, asset_id = "M_" +:+ rest)).
  { intros w0 Hw0. exists []. rewrite app_nil_r. split; [done|]. split; [simpl; lia|].
    intros c Hc. by apply elem_of_nil in Hc. }
  destruct (validity strptime start_date end_date) as [(s & e & Hs & He & Hle)|Hv].
  - rewrite (get_data_run strptime up _ _ _ _ _ w Hs He Hle). unfold run_valid.
    destruct (needs_fetch (cache w) asset_id s e) as [[|]|].
    + destruct (provider up asset_id start_date end_date) as [[|r rest]|m];
        by apply Hone.
    + destruct (cache w !! asset_id); by apply Hnone.
    + by apply Hnone.
  - destruct (get_data_invalid strptime up asset_id _ _ Hv) as [d Hd]. rewrite Hd.
    by apply Hnone.
Qed.

(** ** The adapters (lines 46-70) *)

(** X9. An adapter returns the frame of its provider when that frame holds
    rows, and raises a [ValueError] otherwise, never another exception and
    never an empty frame: the text names the provider and the key, followed
    by the text of the provider's exception or, for an empty frame, by the
    adapter's own "No data found" text, which the adapter wraps like any
    other. An adapter changes no part of the state. *)
Theorem adapters_give_rows_or_value_error up asset_id start_date end_date w :
  let y := fetch_yahoo_finance up asset_id start_date end_date w in
  let f := fetch_fred up asset_id start_date end_date w in
  match yf_history up asset_id start_date end_date with
  | Gives (r :: rest) => y.2 = Return (r :: rest)
  | Gives [] =>
      y.2 = Raise (ValueError ("Error fetching data from Yahoo Finance for " +:+ asset_id
                               +:+ ": " +:+ "No data found for ticker " +:+ asset_id))
  | Fails m =>
      y.2 = Raise (ValueError ("Error fetching data from Yahoo Finance for " +:+ asset_id
                               +:+ ": " +:+ m))
  end /\
  match get_data_fred up asset_id start_date end_date with
  | Gives (r :: rest) => f.2 = Return (r :: rest)
  | Gives [] =>
      f.2 = Raise (ValueError ("Error fetching data from FRED for " +:+ asset_id
                               +:+ ": " +:+ "No data found for FRED series " +:+ asset_id))
  | Fails m =>
      f.2 = Raise (ValueError ("Error fetching data from FRED for " +:+ asset_id
                               +:+ ": " +:+ m))
  end /\
  cache y.1 = cache w /\ asset_locks y.1 = asset_locks w /\ tasks y.1 = tasks w /\
  blobs y.1 = blobs w /\ stdout y.1 = stdout w /\
  cache f.1 = cache w /\ asset_locks f.1 = asset_locks w /\ tasks f.1 = tasks w /\
  blobs f.1 = blobs w /\ stdout f.1 = stdout w.
Proof.
  unfold fetch_yahoo_finance, fetch_fred. run_M.
  destruct (yf_history up asset_id start_date end_date) as [[|r rest]|m];
    destruct (get_data_fred up asset_id start_date end_date) as [[|r' rest']|m'];
    simpl; repeat split; done.
Qed.

(** ** The merge of line 154, continued *)

(** A cached frame without repeated cells comes through a merge whole:
    of two rows with the same cells the first is kept, and the cached rows
    come first. *)
Lemma merge_frames_keeps_distinct cached fetched r :
  NoDup (cells <$> cached) -> r ∈ cached -> r ∈ merge_frames cached fetched.
Proof.
  intros Hnd Hr. rewrite merge_frames_perm. unfold drop_duplicates.
  rewrite drop_duplicates_from_app.
  rewrite (drop_duplicates_from_id [] cached Hnd); [|intros ? _ H; inversion H].
  apply elem_of_app. by left.
Qed.

(** A frame that holds every row of another covers at least its range. *)
Lemma coverage_grows (a b : DataFrame) lo hi :
  (forall r, r ∈ a -> r ∈ b) ->
  available_start a = Some lo -> available_end a = Some hi ->
  exists lo' hi',
    available_start b = Some lo' /\ available_end b = Some hi' /\
    lo' <= lo /\ hi <= hi'.
Proof.
  intros Hab Hlo Hhi. unfold available_start, available_end in *.
  destruct (index_min a) as [ma|] eqn:Ea; [|done].
  destruct (index_max a) as [xa|] eqn:Fa; [|done].
  simpl in Hlo, Hhi. injection Hlo as <-. injection Hhi as <-.
  apply index_min_spec in Ea as [Ha _]. apply index_max_spec in Fa as [Ga _].
  apply list_elem_of_fmap in Ha as (r1 & -> & Hr1).
  apply list_elem_of_fmap in Ga as (r2 & -> & Hr2).
  apply Hab in Hr1. apply Hab in Hr2.
  destruct (index_min b) as [mb|] eqn:Eb;
    [|apply index_min_None in Eb; rewrite Eb in Hr1; inversion Hr1].
  destruct (index_max b) as [xb|] eqn:Fb;
    [|apply index_max_None in Fb; rewrite Fb in Hr1; inversion Hr1].
  exists (to_date mb), (to_date xb). simpl. split; [done|]. split; [done|].
  apply index_min_spec in Eb as [_ Hmin]. apply index_max_spec in Fb as [_ Hmax].
  rewrite Forall_forall in Hmin, Hmax.
  split; apply ts_leb_date; [by apply Hmin|by apply Hmax].
Qed.

(** X10. What the merge of line 154 returns: a frame in ascending order of
    the index, hence of the dates, ties allowed; made of rows of the cached
    and of the fetched frame only; in which no two rows have the same
    cells; and in which every tuple of cells of the two frames is still
    found, though not always on its date. *)
Theorem merge_returns_sorted_distinct_cells cached fetched :
  let m := merge_frames cached fetched in
  StronglySorted row_le m /\
  StronglySorted date_le m /\
  (forall r, r ∈ m -> r ∈ cached \/ r ∈ fetched) /\
  NoDup (cells <$> m) /\
  (forall r, r ∈ cached \/ r ∈ fetched -> cells r ∈ cells <$> m) /\
  (length m <= length cached + length fetched)%nat.
Proof.
  simpl. split; [apply merge_frames_sorted|].
  split; [apply sorted_row_date, merge_frames_sorted|].
  split; [|split; [apply merge_frames_NoDup_cells|split]].
  - intros r. rewrite merge_frames_perm. intros Hr.
    apply elem_of_app. eapply sublist_subseteq; [apply drop_duplicates_sublist|done].
  - intros r Hr. rewrite merge_frames_perm.
    destruct (drop_duplicates_from_cells [] (cached ++ fetched) r) as [H|H].
    + by apply elem_of_app.
    + inversion H.
    + exact H.
  - rewrite merge_frames_perm, <- length_app.
    apply sublist_length, drop_duplicates_sublist.
Qed.

(** X13. A cached frame in which no two rows have the same cells loses
    nothing in a merge: every one of its rows is in the merged frame, so the
    covered range starts no later and ends no earlier than before. *)
Theorem distinct_rows_survive_the_merge cached fetched lo hi :
  NoDup (cells <$> cached) ->
  available_start cached = Some lo -> available_end cached = Some hi ->
  (forall r, r ∈ cached -> r ∈ merge_frames cached fetched) /\
  exists lo' hi',
    available_start (merge_frames cached fetched) = Some lo' /\
    available_end (merge_frames cached fetched) = Some hi' /\
    lo' <= lo /\ hi <= hi'.
Proof.
  intros Hnd Hlo Hhi.
  assert (Hkeep : forall r, r ∈ cached -> r ∈ merge_frames cached fetched)
    by (intros r; by apply merge_frames_keeps_distinct).
  split; [done|]. by eapply coverage_grows.
Qed.

(** X14. An entry that a merge has produced loses no row in any later
    merge, whatever is fetched: from the second merge of a key on, the
    covered range only grows. *)
Theorem merged_entries_lose_no_row cached fetched later :
  let m := merge_frames cached fetched in
  (forall r, r ∈ m -> r ∈ merge_frames m later) /\
  (forall lo hi,
     available_start m = Some lo -> available_end m = Some hi ->
     exists lo' hi',
       available_start (merge_frames m later) = Some lo' /\
       available_end (merge_frames m later) = Some hi' /\
       lo' <= lo /\ hi <= hi').
Proof.
  simpl.
  assert (Hkeep : forall r, r ∈ merge_frames cached fetched ->
            r ∈ merge_frames (merge_frames cached fetched) later).
  { intros r. apply merge_frames_keeps_distinct, merge_frames_NoDup_cells. }
  split; [done|]. intros lo hi Hlo Hhi. by eapply coverage_grows.
Qed.

(** ** Requests that the cache cannot absorb *)

Lemma short_entry_needs_fetch start_dt end_dt at_start asset_id w :
  entry_short_of start_dt end_dt at_start asset_id w ->
  needs_fetch (cache w) asset_id start_dt end_dt = Some true.
Proof.
  unfold entry_short_of.
  destruct (cache w !! asset_id) as [df|] eqn:Hc;
    [|intros _; unfold needs_fetch; by rewrite Hc].
  intros [Hne Hshort].
  destruct (needs_fetch_dates _ _ start_dt end_dt _ Hc Hne) as (lo & hi & Hlo & Hhi & ->).
  f_equal. unfold short_of in Hshort. rewrite Forall_forall in Hshort.
  apply min_date_spec in Hlo as [Hlo _]. apply max_date_spec in Hhi as [Hhi _].
  apply list_elem_of_fmap in Hlo as (r1 & -> & Hr1).
  apply list_elem_of_fmap in Hhi as (r2 & -> & Hr2).
  apply Hshort in Hr1. apply Hshort in Hr2. destruct at_start; lia.
Qed.

Lemma short_entry_stays start_dt end_dt at_start strptime up asset_id start_date end_date w :
  entry_short_of start_dt end_dt at_start asset_id w ->
  answer_short_of start_dt end_dt at_start asset_id start_date end_date up ->
  entry_short_of start_dt end_dt at_start asset_id
    (get_data strptime up asset_id start_date end_date w).1.
Proof.
  intros Hw Hup. unfold entry_short_of in *.
  destruct (get_data_cache strptime up asset_id start_date end_date w)
    as [E|(df & Hne & Hp & E)]; simpl in E; rewrite E; [done|].
  rewrite lookup_insert_eq. unfold answer_short_of in Hup. rewrite Hp in Hup.
  split.
  - unfold stored_entry. destruct (cache w !! asset_id) as [cached|]; [|done].
    apply merge_frames_nonempty. by destruct Hw.
  - unfold short_of in *. rewrite Forall_forall. intros r Hr.
    apply stored_entry_rows in Hr as [Hr|(cached & Hc & Hr)].
    + rewrite Forall_forall in Hup. by apply Hup.
    + rewrite Hc in Hw. destruct Hw as [_ Hw]. rewrite Forall_forall in Hw. by apply Hw.
Qed.

(** X16. The covered range of a key is that of the rows it holds, not that
    of the dates that were asked for. When the key is absent, or holds rows
    that are all dated after the start date of a request, and the provider
    keeps answering that request with rows dated after its start date (or
    with none, or by failing), the request is never served from the cache:
    each time it is sent, however often, the provider is called again for
    the same whole range. The same holds at the other end, for rows all
    dated before the end date. *)
Theorem narrow_answers_are_fetched_again strptime ups asset_id start_date end_date
    start_dt end_dt at_start w :
  strptime start_date = Some start_dt -> strptime end_date = Some end_dt ->
  start_dt <= end_dt ->
  entry_short_of start_dt end_dt at_start asset_id w ->
  Forall (answer_short_of start_dt end_dt at_start asset_id start_date end_date) ups ->
  let w' := repeat_request strptime ups asset_id start_date end_date w in
  calls w' =
    calls w ++ replicate (length ups) (mkCall (source_of asset_id) asset_id start_date end_date) /\
  entry_short_of start_dt end_dt at_start asset_id w'.
Proof.
  intros Hs He Hle Hw Hups. simpl. revert w Hw.
  induction Hups as [|up ups Hup Hups IH]; intros w Hw; simpl.
  - by rewrite app_nil_r.
  - destruct (IH (get_data strptime up asset_id start_date end_date w).1) as [Hcalls Hentry].
    + by apply short_entry_stays.
    + split; [|exact Hentry]. rewrite Hcalls.
      rewrite (get_data_fetch_call strptime up _ _ _ _ _ w Hs He Hle).
      * by rewrite <- app_assoc.
      * by eapply short_entry_needs_fetch.
Qed.

(** X17. The fetched frame is stored, and its backup created, before the
    slice is looked at: when a fetch succeeds and no row of the entry falls
    in the requested range, the request is answered 404 although the cache
    has changed. *)
Theorem empty_slice_after_fetch_is_stored strptime up asset_id start_date end_date
    start_dt end_dt df w :
  strptime start_date = Some start_dt -> strptime end_date = Some end_dt ->
  start_dt <= end_dt ->
  needs_fetch (cache w) asset_id start_dt end_dt = Some true ->
  provider up asset_id start_date end_date = Gives df -> df <> [] ->
  slice start_dt end_dt (stored_entry (cache w) asset_id df) = [] ->
  let r := get_data strptime up asset_id start_date end_date w in
  r.2 = Raise (HTTPException 404 "No data found for the specified range.") /\
  cache r.1 !! asset_id = Some (stored_entry (cache w) asset_id df) /\
  tasks r.1 = tasks w ++ [(asset_id, stored_entry (cache w) asset_id df)].
Proof.
  intros Hs He Hle Hn Hp Hdf Hempty. simpl.
  destruct (get_data_fetched strptime up _ _ _ _ _ df w Hs He Hle Hn Hp Hdf)
    as (Hc & _ & Ht & Ho). simpl in Hc, Ht, Ho.
  rewrite Hc, Ht, Ho, lookup_insert_eq. unfold retrieved. by rewrite Hempty.
Qed.

(** ** The backup task, continued (lines 73-99) *)

Lemma string_length_app (a b : string) :
  String.length (a +:+ b) = (String.length a + String.length b)%nat.
Proof. induction a as [|c a IH]; simpl; [done|]. by rewrite IH. Qed.

Lemma string_app_inj_r (a b t : string) : a +:+ t = b +:+ t -> a = b.
Proof.
  revert b. induction a as [|c a IH]; intros [|d b] H.
  - done.
  - apply (f_equal String.length) in H. rewrite !string_length_app in H.
    simpl in H. lia.
  - apply (f_equal String.length) in H. rewrite !string_length_app in H.
    simpl in H. lia.
  - cbn [String.append] in H. injection H as -> H. f_equal. by apply IH.
Qed.

(** X18. A backup task uploads to one blob, named after its key with the
    suffix [.csv.gz], and only when the CSV writer, gzip, the blob client
    and the upload have all succeeded; it then prints that it succeeded. If
    any of the four raises, no blob is written and the line printed carries
    the text of that exception. Two keys never share a blob, so the blobs of
    the other keys are as they were in both cases. *)
Theorem backup_writes_its_blob_or_none st asset_id data w :
  let b := backup_to_azure st asset_id data w in
  match backup_payload st asset_id data with
  | Gives compressed_data =>
      blobs b.1 = <[blob_name_of asset_id := compressed_data]> (blobs w) /\
      stdout b.1 = stdout w ++ [PrintText ("Backup successful for " +:+ asset_id)]
  | Fails m =>
      blobs b.1 = blobs w /\
      stdout b.1 = stdout w ++
        [PrintText ("Error backing up data for " +:+ asset_id +:+ ": " +:+ m)]
  end /\
  (forall k, k <> asset_id -> blobs b.1 !! blob_name_of k = blobs w !! blob_name_of k).
Proof.
  simpl. unfold backup_to_azure, backup_payload, blob_name_of. run_M.
  assert (Hname : forall k, k <> asset_id -> asset_id +:+ ".csv.gz" <> k +:+ ".csv.gz").
  { intros k Hk E. apply Hk. symmetry. by eapply string_app_inj_r. }
  destruct (to_csv st data) as [csv|m1]; run_M; [|done].
  destruct (gzip_write st csv) as [gz|m2]; run_M; [|done].
  destruct (get_blob_client st _) as [[]|m3]; run_M; [|done].
  destruct (upload_blob st _ gz) as [[]|m4]; run_M; [|done].
  split; [done|]. intros k Hk. rewrite lookup_insert_ne; [done|by apply Hname].
Qed.

(** ** The further properties on worked requests *)

Lemma answering_ascending df : StronglySorted row_le df -> ascending_answers (answering df).
Proof.
  intros Hdf k sd ed df'. unfold provider, answering. simpl.
  destruct (is_macro_metric k); by intros [= <-].
Qed.

Lemma answering_zoned tz df :
  Forall (fun row => ts_tz (index row) = tz) df -> zoned_answers (fun _ => tz) (answering df).
Proof.
  intros Hdf k sd ed df'. unfold provider, answering. simpl.
  destruct (is_macro_metric k); by intros [= <-].
Qed.

(** X2 at the request of the month in [half_world]: the bars of the
    provider are merged into the entry and served, all in New York time. *)
Lemma outcomes_of_a_request_witness :
  let tz_of := fun _ : string => Some "America/New_York" in
  let r := get_data strptime_iso (answering aapl_month) "AAPL" "2023-01-03" "2023-01-31"
             half_world in
  ((exists detail, r.2 = Raise (HTTPException 400 detail)) \/
   r.2 = Raise (ValueError
           (adapter_error "AAPL"
              (provider (answering aapl_month) "AAPL" "2023-01-03" "2023-01-31"))) \/
   r.2 = Raise (HTTPException 404 "No data found for the specified range.") \/
   exists resp start_dt end_dt,
     r.2 = Return resp /\
     strptime_iso "2023-01-03" = Some start_dt /\ strptime_iso "2023-01-31" = Some end_dt /\
     resp_asset_id resp = "AAPL" /\
     split_index (resp_data resp) <> [] /\
     length (split_index (resp_data resp)) = length (split_data (resp_data resp)) /\
     Forall (fun t => start_dt <= to_date t <= end_dt) (split_index (resp_data resp)) /\
     Forall (fun t => ts_tz t = tz_of "AAPL") (split_index (resp_data resp))) /\
  cache_zoned tz_of r.1.
Proof.
  apply (outcomes_of_a_request strptime_iso (fun _ => Some "America/New_York")
           (answering aapl_month) "AAPL" "2023-01-03" "2023-01-31" half_world).
  - apply rtc_once.
    apply (step_request _ _ (answering aapl_half) "AAPL" "2023-01-03" "2023-01-14").
    apply answering_zoned. repeat constructor.
  - apply answering_zoned. repeat constructor.
Defined.

(** X3 at a first request whose provider is down: the key gets its lock. *)
Lemma validated_requests_create_the_lock_witness :
  let w' := (get_data strptime_iso (failing "timed out") "TSLA" "2023-01-03" "2023-01-10"
               half_world).1 in
  "TSLA" ∈ asset_locks w' /\
  asset_locks w' = {["TSLA"]} ∪ asset_locks half_world.
Proof.
  apply (validated_requests_create_the_lock strptime_iso (failing "timed out") "TSLA"
           "2023-01-03" "2023-01-10" half_world).
  exists 20230103, 20230110. split; [reflexivity|]. split; [reflexivity|lia].
Defined.

(** X6 on a request for TSLA made in [half_world]: AAPL keeps its lock and
    its entry. *)
Lemma locks_and_entries_stay_witness :
  asset_locks half_world ⊆ asset_locks tsla_world /\
  (forall k, is_Some (cache half_world !! k) -> is_Some (cache tsla_world !! k)).
Proof.
  apply (locks_and_entries_stay strptime_iso (fun _ => True) half_world tsla_world).
  apply rtc_once.
  by apply (step_request _ _ (answering [bar 20230103 [10810]]) "TSLA"
              "2023-01-03" "2023-01-04").
Defined.

(** X7 in [half_world]. *)
Lemma cached_keys_have_locks_witness :
  cache_nonempty half_world /\ cached_keys_locked half_world /\ tasks_sound half_world.
Proof.
  apply (cached_keys_have_locks strptime_iso half_world).
  exact half_world_reachable.
Defined.

(** X12 on the entry of [half_world], merged with the month. *)
Lemma merge_frames_start_witness :
  exists lo', available_start (merge_frames aapl_half aapl_month) = Some lo' /\
    lo' <= 20230103.
Proof.
  apply (merge_frames_start aapl_half aapl_month 20230103).
  - repeat constructor.
  - reflexivity.
Defined.

(** X13 on the same merge. *)
Lemma distinct_rows_survive_the_merge_witness :
  (forall r, r ∈ aapl_half -> r ∈ merge_frames aapl_half aapl_month) /\
  exists lo' hi',
    available_start (merge_frames aapl_half aapl_month) = Some lo' /\
    available_end (merge_frames aapl_half aapl_month) = Some hi' /\
    lo' <= 20230103 /\ 20230113 <= hi'.
Proof.
  apply (distinct_rows_survive_the_merge aapl_half aapl_month 20230103 20230113).
  - apply (bool_decide_unpack (NoDup (cells <$> aapl_half))). vm_compute. exact I.
  - reflexivity.
  - reflexivity.
Defined.

(** X15 in [half_world], whose provider answered in ascending order. *)
Lemma reachable_sorted_witness : cache_sorted half_world.
Proof.
  apply (reachable_sorted strptime_iso half_world).
  apply rtc_once.
  apply (step_request _ _ (answering aapl_half) "AAPL" "2023-01-03" "2023-01-14").
  apply answering_ascending. repeat constructor.
Defined.

(** X16 at a request that starts on a Saturday, sent three more times
    after the provider's bars of the following week were stored: the
    provider is called three more times. *)
Lemma narrow_answers_are_fetched_again_witness :
  let ups := [answering aapl_week; answering aapl_week; answering aapl_week] in
  let w' := repeat_request strptime_iso ups "AAPL" "2023-01-07" "2023-01-15" week_world in
  calls w' =
    calls week_world ++ replicate (length ups)
                          (mkCall (source_of "AAPL") "AAPL" "2023-01-07" "2023-01-15") /\
  entry_short_of 20230107 20230115 true "AAPL" w'.
Proof.
  apply (narrow_answers_are_fetched_again strptime_iso
           [answering aapl_week; answering aapl_week; answering aapl_week]
           "AAPL" "2023-01-07" "2023-01-15" 20230107 20230115 true week_world).
  - reflexivity.
  - reflexivity.
  - lia.
  - split; [discriminate|repeat constructor].
  - repeat constructor.
Defined.

(** X17 at a request for a weekend that the provider answers with the bars
    of the following week. *)
Lemma empty_slice_after_fetch_is_stored_witness :
  let r := get_data strptime_iso (answering aapl_week) "AAPL" "2023-01-07" "2023-01-08"
             init in
  r.2 = Raise (HTTPException 404 "No data found for the specified range.") /\
  cache r.1 !! "AAPL" = Some (stored_entry (cache init) "AAPL" aapl_week) /\
  tasks r.1 = tasks init ++ [("AAPL", stored_entry (cache init) "AAPL" aapl_week)].
Proof.
  apply (empty_slice_after_fetch_is_stored strptime_iso (answering aapl_week) "AAPL"
           "2023-01-07" "2023-01-08" 20230107 20230108 aapl_week init).
  - reflexivity.
  - reflexivity.
  - lia.
  - reflexivity.
  - reflexivity.
  - discriminate.
  - reflexivity.
Defined.
